(** * sshit: lifecycle of SSH control-master sockets

    A shallow embedding of the TypeScript operations of the repository
    (Create, Check, Exec, Exit, RemoveSocketFile, TearDown, Validate and
    the command-execution helpers of [sshit-internals.ts]) together with
    the properties the specification states about them.

    Conventions of the embedding
    - a JavaScript string is a [string]; only ASCII patterns are ever
      searched for or replaced, so the code-unit view and the byte view
      of a string give the same answers;
    - a [Buffer] is a [list byte];
    - a JavaScript number that holds an exit code or a number of seconds
      is a [Z];
    - the outside world (file system, [spawn] and the child processes,
      clock, the text codec of the runtime) is an oracle [World] that
      answers each call from the history of the calls made so far;
    - an [async] function is a function from the history to the extended
      history and the state of the promise it returns. *)

From Stdlib Require Import Bool List String Ascii ZArith NArith Lia.
From Stdlib Require Import Strings.Byte DecimalString.
From ExtLib Require Import Structures.Monad Structures.MonadExc.
Import ListNotations.
Import MonadNotation.

Local Open Scope string_scope.
Local Open Scope monad_scope.

(* ===================================================================== *)
(** ** JavaScript strings *)
(* ===================================================================== *)

Module JsString.

(** [s.startsWith(pat)] *)
Fixpoint startsWith (s pat : string) {struct pat} : bool :=
  match pat, s with
  | EmptyString, _ => true
  | String _ _, EmptyString => false
  | String p pat', String c s' => Ascii.eqb c p && startsWith s' pat'
  end.

(** [s.includes(pat)]: is [pat] a substring of [s]? *)
Fixpoint includes (s pat : string) : bool :=
  startsWith s pat
  || match s with
     | EmptyString => false
     | String _ s' => includes s' pat
     end.

(** [s.replace(/C/g, r)] for a regular expression [C] that matches
    exactly one character, given as the predicate [matches]. *)
Fixpoint replace_g (matches : ascii -> bool) (r : string) (s : string) : string :=
  match s with
  | EmptyString => EmptyString
  | String c s' =>
      if matches c then r ++ replace_g matches r s'
      else String c (replace_g matches r s')
  end.

Fixpoint forallb (p : ascii -> bool) (s : string) : bool :=
  match s with
  | EmptyString => true
  | String c s' => p c && forallb p s'
  end.

Fixpoint map (f : ascii -> ascii) (s : string) : string :=
  match s with
  | EmptyString => EmptyString
  | String c s' => String (f c) (map f s')
  end.

Fixpoint filter (p : ascii -> bool) (s : string) : string :=
  match s with
  | EmptyString => EmptyString
  | String c s' => if p c then String c (filter p s') else filter p s'
  end.

Definition between (lo hi c : ascii) : bool :=
  (N_of_ascii lo <=? N_of_ascii c)%N && (N_of_ascii c <=? N_of_ascii hi)%N.

(** The character class [[a-zA-Z0-9-]]. *)
Definition alnum_or_dash (c : ascii) : bool :=
  between "a" "z" c || between "A" "Z" c || between "0" "9" c
  || Ascii.eqb c "-".

(** [`${n}`] for an integral number [n]. *)
Definition of_number (n : Z) : string :=
  NilZero.string_of_int (Z.to_int n).

End JsString.

(* ===================================================================== *)
(** ** The runtime: promises, thrown values and the outside world *)
(* ===================================================================== *)

Module Runtime.

Definition Buffer := list byte.

(** A value that was thrown, or with which a promise was rejected: an
    [Error] object with its optional [code] and its [message], or any
    other value, kept as the text [String(value)] gives for it. *)
Inductive Thrown :=
| ErrorObject (code : option string) (message : string)
| NonError (asString : string).

(** [error instanceof Error ? error.message : String(error)] *)
Definition message_of (error : Thrown) : string :=
  match error with
  | ErrorObject _ message => message
  | NonError s => s
  end.

Inductive Promise (A : Type) :=
| Pending
| Fulfilled (value : A)
| Rejected (reason : Thrown).

Arguments Pending {A}.
Arguments Fulfilled {A} value.
Arguments Rejected {A} reason.

(** What a spawned child process emits, in order: chunks on its two
    pipes, ['close'] with an exit code or [null], ['error']. *)
Inductive ChildEvent :=
| stdout_data (chunk : Buffer)
| stderr_data (chunk : Buffer)
| close (code : option Z)
| error (message : string).

(** What [spawn(command, args, options)] of [node:child_process] does:
    like every call it may throw (the runtimes do so for arguments they
    refuse, an empty command name for one), and otherwise it returns a
    child process, seen here as the events the listeners will receive. *)
Inductive Spawned :=
| spawn_throws (e : Thrown)
| spawn_child (events : list ChildEvent).

(** The calls an operation makes to the outside. *)
Inductive Call :=
| Stat (path : string)
| Unlink (path : string)
| Spawn (command : string) (args : list string)
| DateNow
| Log (message : string)
| LogError (message : string).

Definition History := list Call.

(** The outside world answers every call from the calls made before it.
    [fs_stat] and [fs_unlink] give [None] when the promise of
    [stat]/[unlink] is fulfilled and the rejection reason otherwise. *)
Record World := mkWorld {
  fs_stat : History -> string -> option Thrown;
  fs_unlink : History -> string -> option Thrown;
  spawn : History -> string -> list string -> Spawned;
  date_toISOString : History -> string;
  buffer_toString : Buffer -> string;
  buffer_from : string -> Buffer
}.

(** An [async] computation: it extends the history of calls and leaves
    a promise. [await] on a pending promise never resumes. *)
Definition Async (A : Type) : Type := History -> History * Promise A.

Definition Async_ret {A} (a : A) : Async A :=
  fun h => (h, Fulfilled a).

Definition Async_bind {A B} (m : Async A) (k : A -> Async B) : Async B :=
  fun h =>
    match m h with
    | (h', Fulfilled a) => k a h'
    | (h', Pending) => (h', Pending)
    | (h', Rejected e) => (h', Rejected e)
    end.

Definition Async_raise {A} (e : Thrown) : Async A :=
  fun h => (h, Rejected e).

(** [try { m } catch (error) { handler(error) }] *)
Definition Async_catch {A} (m : Async A) (handler : Thrown -> Async A) : Async A :=
  fun h =>
    match m h with
    | (h', Rejected e) => handler e h'
    | r => r
    end.

#[global] Instance Monad_Async : Monad Async :=
  {| ret := @Async_ret; bind := @Async_bind |}.

#[global] Instance Exc_Async : MonadExc Thrown Async :=
  {| raise := @Async_raise; catch := @Async_catch |}.

Section Calls.
Variable W : World.

Definition call {A} (c : Call) (answer : History -> Promise A) : Async A :=
  fun h => ((h ++ [c])%list, answer h).

(** [stat(path)] of [node:fs/promises] *)
Definition stat (path : string) : Async unit :=
  call (Stat path)
    (fun h => match fs_stat W h path with
              | None => Fulfilled tt
              | Some e => Rejected e
              end).

(** [unlink(path)] of [node:fs/promises] *)
Definition unlink (path : string) : Async unit :=
  call (Unlink path)
    (fun h => match fs_unlink W h path with
              | None => Fulfilled tt
              | Some e => Rejected e
              end).

(** [new Date().toISOString()] *)
Definition now : Async string :=
  call DateNow (fun h => Fulfilled (date_toISOString W h)).

(** [this.log(io, message)] and [this.error(io, message)] of the [Op]
    base class. *)
Definition log (message : string) : Async unit :=
  call (Log message) (fun _ => Fulfilled tt).

Definition logError (message : string) : Async unit :=
  call (LogError message) (fun _ => Fulfilled tt).

End Calls.

(** The result of an operation: what [this.succeed(value)] and
    [this.fail(failure, debugData)] build, told apart by [ok]. *)
Inductive Outcome (V F : Type) :=
| Success (value : V)
| Failure (failure : F) (debugData : string).

Arguments Success {V F} value.
Arguments Failure {V F} failure debugData.

Definition succeed {V F} (value : V) : Outcome V F := Success value.
Definition fail {V F} (failure : F) (debugData : string) : Outcome V F :=
  Failure failure debugData.

Definition ok {V F} (o : Outcome V F) : bool :=
  match o with Success _ => true | Failure _ _ => false end.

End Runtime.

Import Runtime.

(* ===================================================================== *)
(** ** [sshit-internals.ts]: the command-execution service *)
(* ===================================================================== *)

Module sshit_internals.

Record ShellResult := mkShellResult {
  exitCode : Z;
  stdout : string;
  stderr : string
}.

Record ShellResultBuffers := mkShellResultBuffers {
  bExitCode : Z;
  stdoutBuffer : Buffer;
  stderrBuffer : Buffer
}.

(** The state the executor of the promise closes over: the two chunk
    arrays and the promise that [resolve] settles. *)
Record Executor (R : Type) := mkExecutor {
  stdoutChunks : list Buffer;
  stderrChunks : list Buffer;
  promise : Promise R
}.

Arguments mkExecutor {R}.
Arguments stdoutChunks {R}.
Arguments stderrChunks {R}.
Arguments promise {R}.

(** [resolve(value)]: settles a pending promise, and does nothing to a
    promise that is settled already. *)
Definition resolve {R} (value : R) (p : Promise R) : Promise R :=
  match p with
  | Pending => Fulfilled value
  | _ => p
  end.

(** [code ?? 1] *)
Definition code_or_1 (code : option Z) : Z :=
  match code with
  | Some c => c
  | None => 1%Z
  end.

Section Handlers.
Variable W : World.

(** The four listeners [runCommand] registers on the child process. *)
Definition runCommand_on (st : Executor ShellResult) (ev : ChildEvent)
  : Executor ShellResult :=
  match ev with
  | stdout_data chunk =>
      mkExecutor (stdoutChunks st ++ [chunk])%list (stderrChunks st) (promise st)
  | stderr_data chunk =>
      mkExecutor (stdoutChunks st) (stderrChunks st ++ [chunk])%list (promise st)
  | close code =>
      mkExecutor (stdoutChunks st) (stderrChunks st)
        (resolve
           (mkShellResult (code_or_1 code)
              (buffer_toString W (List.concat (stdoutChunks st)))
              (buffer_toString W (List.concat (stderrChunks st))))
           (promise st))
  | error message =>
      mkExecutor (stdoutChunks st) (stderrChunks st)
        (resolve (mkShellResult 1 "" message) (promise st))
  end.

(** The four listeners [runCommandBuffers] registers. *)
Definition runCommandBuffers_on (st : Executor ShellResultBuffers)
    (ev : ChildEvent) : Executor ShellResultBuffers :=
  match ev with
  | stdout_data chunk =>
      mkExecutor (stdoutChunks st ++ [chunk])%list (stderrChunks st) (promise st)
  | stderr_data chunk =>
      mkExecutor (stdoutChunks st) (stderrChunks st ++ [chunk])%list (promise st)
  | close code =>
      mkExecutor (stdoutChunks st) (stderrChunks st)
        (resolve
           (mkShellResultBuffers (code_or_1 code)
              (List.concat (stdoutChunks st))
              (List.concat (stderrChunks st)))
           (promise st))
  | error message =>
      mkExecutor (stdoutChunks st) (stderrChunks st)
        (resolve (mkShellResultBuffers 1 [] (buffer_from W message))
           (promise st))
  end.

(** The promise [new Promise((resolve) => { ... })] of [runCommand]: an
    exception in the executor rejects it; otherwise the listeners are
    in place and the events of the child reach them one by one. *)
Definition runCommand_promise (s : Spawned) : Promise ShellResult :=
  match s with
  | spawn_throws e => Rejected e
  | spawn_child events =>
      promise (fold_left runCommand_on events (mkExecutor [] [] Pending))
  end.

Definition runCommandBuffers_promise (s : Spawned)
  : Promise ShellResultBuffers :=
  match s with
  | spawn_throws e => Rejected e
  | spawn_child events =>
      promise (fold_left runCommandBuffers_on events
                 (mkExecutor [] [] Pending))
  end.

Definition runCommand (command : string) (args : list string)
  : Async ShellResult :=
  call (Spawn command args)
    (fun h => runCommand_promise (spawn W h command args)).

Definition runCommandBuffers (command : string) (args : list string)
  : Async ShellResultBuffers :=
  call (Spawn command args)
    (fun h => runCommandBuffers_promise (spawn W h command args)).

End Handlers.

End sshit_internals.

Import sshit_internals.

(* ===================================================================== *)
(** ** Create: [SSHCreateSocketOp] *)
(* ===================================================================== *)

Module SocketInfo.

Record t := mk {
  path : string;
  host : string;
  createdAt : string
}.

End SocketInfo.

Module SSHCreateSocketOp.

Inductive SSHCreateSocketFailure :=
| AuthenticationFailed
| HostNotFound
| HostKeyVerificationFailed
| ConnectionRefused
| PermissionDenied
| Timeout
| UnknownError.

(** The fields of the operation; [socketPath] is [string | undefined]. *)
Record t := mk {
  host : string;
  socketPath : option string;
  connectTimeout : Z;
  serverAliveInterval : Z
}.

(** [new SSHCreateSocketOp(host, socketPath?, connectTimeout = 10,
    serverAliveInterval = 30)] *)
Definition new (host : string) (socketPath : option string)
    (connectTimeout serverAliveInterval : option Z) : t :=
  mk host socketPath
    (match connectTimeout with Some n => n | None => 10%Z end)
    (match serverAliveInterval with Some n => n | None => 30%Z end).

(** Truthiness of a [string | undefined]: [undefined] and the empty
    string are falsy. *)
Definition truthy (s : option string) : bool :=
  match s with
  | None => false
  | Some EmptyString => false
  | Some (String _ _) => true
  end.

Definition sanitized (host : string) : string :=
  JsString.replace_g (fun c => negb (JsString.alnum_or_dash c)) ""
    (JsString.replace_g (Ascii.eqb ":") "-"
      (JsString.replace_g (Ascii.eqb ".") "-"
        (JsString.replace_g (Ascii.eqb "@") "-" host))).

(** [#getSocketPath()]; the copy of the class in [src/unnamed/part_000]
    has the same method, character for character. *)
Definition getSocketPath (op : t) : string :=
  match socketPath op with
  | Some p => if truthy (Some p) then p
              else "/tmp/sshit-ctrl-" ++ sanitized (host op)
  | None => "/tmp/sshit-ctrl-" ++ sanitized (host op)
  end.

(** The sanitizer in the words of the specification: every ['@'], ['.']
    and [':'] becomes ['-'], then every character outside
    [[A-Za-z0-9-]] is removed. *)
Definition spec_sanitize (h : string) : string :=
  JsString.filter JsString.alnum_or_dash
    (JsString.map
       (fun c =>
          if Ascii.eqb c "@" || Ascii.eqb c "." || Ascii.eqb c ":"
          then "-"%char else c)
       h).

Definition ssh_args (op : t) (socketPath : string) : list string :=
  [ "-M"; "-S"; socketPath; "-fN";
    "-o"; "ConnectTimeout=" ++ JsString.of_number (connectTimeout op);
    "-o"; "ServerAliveInterval=" ++ JsString.of_number (serverAliveInterval op);
    "-o"; "StrictHostKeyChecking=accept-new";
    host op ].

Section Run.
Variable W : World.

(** [run] of [src/SSHCreateSocketOp.ts]. *)
Definition run (op : t) : Async (Outcome SocketInfo.t SSHCreateSocketFailure) :=
  let socketPath := getSocketPath op in
  catch
    (log ("Creating control socket at " ++ socketPath ++ " for " ++ host op) ;;
     result <- runCommand W "ssh" (ssh_args op socketPath) ;;
     if (exitCode result =? 0)%Z then
       createdAt <- now W ;;
       log "Socket created successfully" ;;
       ret (succeed (SocketInfo.mk socketPath (host op) createdAt))
     else
       let stderr := stderr result in
       logError ("SSH failed with exit code "
                   ++ JsString.of_number (exitCode result) ++ ": " ++ stderr) ;;
       if JsString.includes stderr "Permission denied (publickey"
       then ret (fail PermissionDenied stderr)
       else if JsString.includes stderr "Permission denied"
               || JsString.includes stderr "Authentication failed"
       then ret (fail AuthenticationFailed stderr)
       else if JsString.includes stderr "REMOTE HOST IDENTIFICATION HAS CHANGED"
               || JsString.includes stderr "Host key verification failed"
       then ret (fail HostKeyVerificationFailed stderr)
       else if JsString.includes stderr "Could not resolve hostname"
               || JsString.includes stderr "Name or service not known"
       then ret (fail HostNotFound stderr)
       else if JsString.includes stderr "Connection refused"
               || JsString.includes stderr "Network is unreachable"
               || JsString.includes stderr "No route to host"
               || JsString.includes stderr "Broken pipe"
       then ret (fail ConnectionRefused stderr)
       else if JsString.includes stderr "Operation timed out"
               || JsString.includes stderr "Connection timed out"
       then ret (fail Timeout stderr)
       else ret (fail UnknownError
                   ("Exit code " ++ JsString.of_number (exitCode result)
                    ++ ": " ++ stderr)))
    (fun error =>
       let message := message_of error in
       logError ("Exception: " ++ message) ;;
       ret (fail UnknownError message)).

End Run.

End SSHCreateSocketOp.

(** The second copy of the class, in [src/unnamed/part_000]. Its fields,
    constructor and [#getSocketPath] are those of [SSHCreateSocketOp];
    its [run] tests the patterns in another order and knows fewer of
    them. *)
Module SSHCreateSocketOp_part_000.

Import SSHCreateSocketOp.

Section Run.
Variable W : World.

Definition run (op : t) : Async (Outcome SocketInfo.t SSHCreateSocketFailure) :=
  let socketPath := getSocketPath op in
  catch
    (log ("Creating control socket at " ++ socketPath ++ " for " ++ host op) ;;
     result <- runCommand W "ssh" (ssh_args op socketPath) ;;
     if (exitCode result =? 0)%Z then
       createdAt <- now W ;;
       log "Socket created successfully" ;;
       ret (succeed (SocketInfo.mk socketPath (host op) createdAt))
     else
       let stderr := stderr result in
       logError ("SSH failed with exit code "
                   ++ JsString.of_number (exitCode result) ++ ": " ++ stderr) ;;
       if JsString.includes stderr "Permission denied"
          || JsString.includes stderr "Authentication failed"
       then ret (fail AuthenticationFailed stderr)
       else if JsString.includes stderr "REMOTE HOST IDENTIFICATION HAS CHANGED"
               || JsString.includes stderr "Host key verification failed"
       then ret (fail HostKeyVerificationFailed stderr)
       else if JsString.includes stderr "Could not resolve hostname"
               || JsString.includes stderr "Name or service not known"
       then ret (fail HostNotFound stderr)
       else if JsString.includes stderr "Connection refused"
       then ret (fail ConnectionRefused stderr)
       else if JsString.includes stderr "Operation timed out"
               || JsString.includes stderr "Connection timed out"
       then ret (fail Timeout stderr)
       else if JsString.includes stderr "Permission denied (publickey"
       then ret (fail PermissionDenied stderr)
       else ret (fail UnknownError
                   ("Exit code " ++ JsString.of_number (exitCode result)
                    ++ ": " ++ stderr)))
    (fun error =>
       let message := message_of error in
       logError ("Exception: " ++ message) ;;
       ret (fail UnknownError message)).

End Run.

End SSHCreateSocketOp_part_000.

(* ===================================================================== *)
(** ** Check: [SSHCheckSocketOp] *)
(* ===================================================================== *)

(** The operations below that spawn [ssh] through a file-local
    [runCommand] carry a copy of [sshit_internals.runCommand], character
    for character; the embedding uses the one definition. *)

Module SSHCheckSocketOp.

Inductive SocketStatus :=
| alive
| dead.

Inductive SSHCheckSocketFailure :=
| SocketNotFound
| UnknownError.

Record t := mk {
  socketPath : string;
  host : string
}.

Section Run.
Variable W : World.

(** The inner [try { await stat(...) } catch { return this.fail(...) }]
    leaves [run] from its handler; [found] tells the two ways out of it
    apart, so that the handler catches what [stat] throws and nothing
    of what follows. Exec and Exit open in the same way. *)
Definition run (op : t) : Async (Outcome SocketStatus SSHCheckSocketFailure) :=
  catch
    (found <- catch (stat W (socketPath op) ;; ret true)
                    (fun _ => ret false) ;;
     if negb found
     then ret (fail SocketNotFound
                 ("Control socket does not exist: " ++ socketPath op))
     else
       log ("Checking socket health: " ++ socketPath op) ;;
       result <- runCommand W "ssh"
                   [ "-S"; socketPath op; "-O"; "check"; host op ] ;;
       if (exitCode result =? 0)%Z then
         log "Socket is alive" ;;
         ret (succeed alive)
       else
         log "Socket is dead" ;;
         ret (succeed dead))
    (fun error =>
       let message := message_of error in
       logError ("Exception: " ++ message) ;;
       ret (fail UnknownError message)).

End Run.

End SSHCheckSocketOp.

(* ===================================================================== *)
(** ** Exec: [SSHExecOp] *)
(* ===================================================================== *)

Module SSHExecOp.

Record ExecResult := mkExecResult {
  exitCode : Z;
  stdout : string;
  stderr : string;
  stdoutBuffer : Buffer;
  stderrBuffer : Buffer
}.

Inductive SSHExecFailure :=
| SocketNotFound
| SocketDead
| ConnectionFailed
| Timeout
| UnknownError.

Record t := mk {
  socketPath : string;
  host : string;
  command : string;
  timeoutSeconds : Z
}.

(** [new SSHExecOp(socketPath, host, command, timeoutSeconds = 30)] *)
Definition new (socketPath host command : string)
    (timeoutSeconds : option Z) : t :=
  mk socketPath host command
    (match timeoutSeconds with Some n => n | None => 30%Z end).

Definition ssh_args (op : t) : list string :=
  [ "-S"; socketPath op;
    "-o"; "ControlMaster=no";
    "-o"; "ConnectTimeout=" ++ JsString.of_number (timeoutSeconds op);
    host op; command op ].

Section Run.
Variable W : World.

Definition run (op : t) : Async (Outcome ExecResult SSHExecFailure) :=
  catch
    (found <- catch (stat W (socketPath op) ;; ret true)
                    (fun _ => ret false) ;;
     if negb found
     then ret (fail SocketNotFound
                 ("Control socket does not exist: " ++ socketPath op))
     else
       log ("Executing on " ++ host op ++ " via " ++ socketPath op
            ++ ": " ++ command op) ;;
       result <- runCommandBuffers W "ssh" (ssh_args op) ;;
       let stdoutBuffer := sshit_internals.stdoutBuffer result in
       let stderrBuffer := sshit_internals.stderrBuffer result in
       let exitCode := sshit_internals.bExitCode result in
       let stdout := buffer_toString W stdoutBuffer in
       let stderr := buffer_toString W stderrBuffer in
       if (exitCode =? 255)%Z then
         if JsString.includes stderr "No such file"
            || JsString.includes stderr "no such file"
         then ret (fail SocketNotFound stderr)
         else if JsString.includes stderr "Connection refused"
                 || JsString.includes stderr "Connection reset"
         then ret (fail ConnectionFailed stderr)
         else if JsString.includes stderr "Operation timed out"
                 || JsString.includes stderr "Connection timed out"
         then ret (fail Timeout stderr)
         else if JsString.includes stderr "Control socket"
                 && JsString.includes stderr "dead"
         then ret (fail SocketDead stderr)
         else ret (fail ConnectionFailed ("Exit 255: " ++ stderr))
       else
         log ("Command completed with exit code "
              ++ JsString.of_number exitCode) ;;
         ret (succeed
                (mkExecResult exitCode stdout stderr stdoutBuffer stderrBuffer)))
    (fun error =>
       let message := message_of error in
       logError ("Exception: " ++ message) ;;
       ret (fail UnknownError message)).

End Run.

End SSHExecOp.

(* ===================================================================== *)
(** ** Exit: [SSHExitSocketOp] *)
(* ===================================================================== *)

Module SSHExitSocketOp.

Inductive SSHExitSocketFailure :=
| SocketNotFound
| UnknownError.

Record t := mk {
  socketPath : string;
  host : string
}.

Section Run.
Variable W : World.

Definition run (op : t) : Async (Outcome bool SSHExitSocketFailure) :=
  catch
    (found <- catch (stat W (socketPath op) ;; ret true)
                    (fun _ => ret false) ;;
     if negb found
     then ret (fail SocketNotFound
                 ("Control socket does not exist: " ++ socketPath op))
     else
       log ("Requesting socket exit: " ++ socketPath op) ;;
       result <- runCommand W "ssh"
                   [ "-S"; socketPath op; "-O"; "exit"; host op ] ;;
       let exitedCleanly := (exitCode result =? 0)%Z in
       log (if exitedCleanly then "Socket exited cleanly"
            else "Socket exit command failed (may already be dead)") ;;
       ret (succeed exitedCleanly))
    (fun error =>
       let message := message_of error in
       logError ("Exception: " ++ message) ;;
       ret (fail UnknownError message)).

End Run.

End SSHExitSocketOp.

(* ===================================================================== *)
(** ** RemoveSocketFile: [RemoveSocketFileOp] *)
(* ===================================================================== *)

Module RemoveSocketFileOp.

Inductive RemoveSocketFileFailure :=
| FileNotFound
| PermissionDenied
| UnknownError.

Record t := mk {
  socketPath : string
}.

(** [nodeError.code === name], where [code] may be missing. *)
Definition code_is (code : option string) (name : string) : bool :=
  match code with
  | Some c => String.eqb c name
  | None => false
  end.

Section Run.
Variable W : World.

Definition run (op : t) : Async (Outcome bool RemoveSocketFileFailure) :=
  catch
    (log ("Removing socket file: " ++ socketPath op) ;;
     unlink W (socketPath op) ;;
     log "Socket file removed" ;;
     ret (succeed true))
    (fun error =>
       match error with
       | ErrorObject code message =>
           if code_is code "ENOENT"
           then ret (fail FileNotFound
                       ("File does not exist: " ++ socketPath op))
           else if code_is code "EACCES" || code_is code "EPERM"
           then ret (fail PermissionDenied
                       ("Permission denied: " ++ socketPath op))
           else
             logError ("Exception: " ++ message) ;;
             ret (fail UnknownError message)
       | NonError message =>
           logError ("Exception: " ++ message) ;;
           ret (fail UnknownError message)
       end).

End Run.

End RemoveSocketFileOp.

(* ===================================================================== *)
(** ** TearDown: [TearDownSocketOp] *)
(* ===================================================================== *)

Module TearDownSocketOp.

Record TearDownResult := mkTearDownResult {
  exitedCleanly : bool;
  fileRemoved : bool
}.

Inductive TearDownSocketFailure :=
| RemoveFailed
| UnknownError.

Record t := mk {
  socketPath : string;
  host : string
}.

Section Run.
Variable W : World.

Definition run (op : t) : Async (Outcome TearDownResult TearDownSocketFailure) :=
  catch
    (log ("Tearing down socket: " ++ socketPath op) ;;
     exitOutcome <- SSHExitSocketOp.run W
                      (SSHExitSocketOp.mk (socketPath op) (host op)) ;;
     let exitedCleanly :=
       match exitOutcome with
       | Success value => value
       | Failure _ _ => false
       end in
     match exitOutcome with
     | Failure SSHExitSocketOp.SocketNotFound _ =>
         log "Socket file does not exist, nothing to tear down" ;;
         ret (succeed (mkTearDownResult false false))
     | _ =>
         removeOutcome <- RemoveSocketFileOp.run W
                            (RemoveSocketFileOp.mk (socketPath op)) ;;
         match removeOutcome with
         | Failure RemoveSocketFileOp.FileNotFound _ =>
             log "Socket file already removed" ;;
             ret (succeed (mkTearDownResult exitedCleanly false))
         | Failure _ debugData =>
             ret (fail RemoveFailed debugData)
         | Success _ =>
             log "Socket torn down successfully" ;;
             ret (succeed (mkTearDownResult exitedCleanly true))
         end
     end)
    (fun error =>
       let message := message_of error in
       logError ("Exception: " ++ message) ;;
       ret (fail UnknownError message)).

End Run.

End TearDownSocketOp.

(* ===================================================================== *)
(** ** Validate: [ValidateSocketOp] *)
(* ===================================================================== *)

Module ValidateSocketOp.

(** ['alive' | 'dead' | 'not-found'] *)
Inductive Status :=
| alive
| dead
| not_found.

Record ValidationResult := mkValidationResult {
  valid : bool;
  status : Status
}.

Inductive ValidateSocketFailure :=
| UnknownError.

Record t := mk {
  socketPath : string;
  host : string
}.

(** A [SocketStatus] read at the wider type of [ValidationResult.status]. *)
Definition of_SocketStatus (s : SSHCheckSocketOp.SocketStatus) : Status :=
  match s with
  | SSHCheckSocketOp.alive => alive
  | SSHCheckSocketOp.dead => dead
  end.

(** [status === 'alive'] *)
Definition is_alive (s : SSHCheckSocketOp.SocketStatus) : bool :=
  match s with
  | SSHCheckSocketOp.alive => true
  | SSHCheckSocketOp.dead => false
  end.

Section Run.
Variable W : World.

Definition run (op : t) : Async (Outcome ValidationResult ValidateSocketFailure) :=
  catch
    (log ("Validating socket: " ++ socketPath op) ;;
     checkOutcome <- SSHCheckSocketOp.run W
                       (SSHCheckSocketOp.mk (socketPath op) (host op)) ;;
     match checkOutcome with
     | Failure SSHCheckSocketOp.SocketNotFound _ =>
         log "Socket not found" ;;
         ret (succeed (mkValidationResult false not_found))
     | Failure _ debugData =>
         ret (fail UnknownError debugData)
     | Success status =>
         let valid := is_alive status in
         log ("Socket is "
              ++ (match status with
                  | SSHCheckSocketOp.alive => "alive"
                  | SSHCheckSocketOp.dead => "dead"
                  end)
              ++ ", valid=" ++ (if valid then "true" else "false")) ;;
         ret (succeed (mkValidationResult valid (of_SocketStatus status)))
     end)
    (fun error =>
       let message := message_of error in
       logError ("Exception: " ++ message) ;;
       ret (fail UnknownError message)).

End Run.

End ValidateSocketOp.

(* ===================================================================== *)
(** ** Observing a run *)
(* ===================================================================== *)

Module Observe.

(** Started after the calls [h], the computation [m] completes with the
    value [a]. *)
Definition settles_to {A} (m : Async A) (h : History) (a : A) : Prop :=
  snd (m h) = Fulfilled a.

(** The calls [m] makes when it is started after the calls [h]. *)
Definition calls_after {A} (m : Async A) (h : History) : History :=
  fst (m h).

Definition is_Spawn (c : Call) : bool :=
  match c with Spawn _ _ => true | _ => false end.

Definition is_Unlink (c : Call) : bool :=
  match c with Unlink _ => true | _ => false end.

(** The child processes spawned, and the files unlinked, in a history. *)
Definition spawns (h : History) : list Call := List.filter is_Spawn h.
Definition unlinks (h : History) : list Call := List.filter is_Unlink h.

(** ['data'] events, as opposed to the two that settle the promise. *)
Definition is_data (ev : ChildEvent) : bool :=
  match ev with
  | stdout_data _ | stderr_data _ => true
  | close _ | error _ => false
  end.

(** The chunks of each pipe among some events, in order. *)
Fixpoint stdout_of (events : list ChildEvent) : list Buffer :=
  match events with
  | [] => []
  | stdout_data chunk :: rest => chunk :: stdout_of rest
  | _ :: rest => stdout_of rest
  end.

Fixpoint stderr_of (events : list ChildEvent) : list Buffer :=
  match events with
  | [] => []
  | stderr_data chunk :: rest => chunk :: stderr_of rest
  | _ :: rest => stderr_of rest
  end.

End Observe.

(* ===================================================================== *)
(** ** Worlds for the examples *)
(* ===================================================================== *)

Module Scenario.

Definition ENOENT : Thrown :=
  ErrorObject (Some "ENOENT") "ENOENT: no such file or directory".

Definition EACCES : Thrown :=
  ErrorObject (Some "EACCES") "EACCES: permission denied".

Definition E2BIG : Thrown :=
  ErrorObject (Some "E2BIG") "spawn E2BIG".

Definition ERR_INVALID_ARG_VALUE : Thrown :=
  ErrorObject (Some "ERR_INVALID_ARG_VALUE")
    "The argument 'file' cannot be empty. Received ''".

(** A world in which exactly the paths of [present] can be [stat]ed,
    [spawn] refuses the empty command name and answers [spawned] for
    every other one, [unlink] is answered with [unlink_answer],
    and text is converted to bytes and back one character per byte. *)
Definition world (present : list string) (spawned : Spawned)
    (unlink_answer : option Thrown) : World :=
  mkWorld
    (fun _ path => if List.existsb (String.eqb path) present
                   then None else Some ENOENT)
    (fun _ _ => unlink_answer)
    (fun _ command _ =>
       if String.eqb command "" then spawn_throws ERR_INVALID_ARG_VALUE
       else spawned)
    (fun _ => "2025-01-01T00:00:00.000Z")
    string_of_list_byte
    list_byte_of_string.

(** A child that writes [text] on its standard error and exits with
    [code]. *)
Definition ssh_fails (code : Z) (text : string) : Spawned :=
  spawn_child [ stderr_data (list_byte_of_string text); close (Some code) ].

(** A child that writes [text] on its standard output and exits with
    [code]. *)
Definition ssh_prints (code : Z) (text : string) : Spawned :=
  spawn_child [ stdout_data (list_byte_of_string text); close (Some code) ].

End Scenario.

(* ===================================================================== *)
(** ** Classification tables *)
(* ===================================================================== *)

(** The failure classifications in the form the specification gives
    them: an ordered list of pairs of a predicate on the captured text
    and a failure kind, of which the first pair whose predicate holds
    decides. *)
Module Classification.

Definition Rule (F : Type) : Type := ((string -> bool) * F)%type.

Fixpoint first_match {F} (rules : list (Rule F)) (text : string) : option F :=
  match rules with
  | [] => None
  | (test, kind) :: rest =>
      if test text then Some kind else first_match rest text
  end.

(** The text contains one of the patterns. *)
Definition any_of (patterns : list string) (text : string) : bool :=
  List.existsb (JsString.includes text) patterns.

(** The text contains every one of the patterns. *)
Definition all_of (patterns : list string) (text : string) : bool :=
  List.forallb (JsString.includes text) patterns.

Definition create_rules : list (Rule SSHCreateSocketOp.SSHCreateSocketFailure) :=
  [ (any_of ["Permission denied (publickey"],
     SSHCreateSocketOp.PermissionDenied);
    (any_of ["Permission denied"; "Authentication failed"],
     SSHCreateSocketOp.AuthenticationFailed);
    (any_of ["REMOTE HOST IDENTIFICATION HAS CHANGED";
             "Host key verification failed"],
     SSHCreateSocketOp.HostKeyVerificationFailed);
    (any_of ["Could not resolve hostname"; "Name or service not known"],
     SSHCreateSocketOp.HostNotFound);
    (any_of ["Connection refused"; "Network is unreachable";
             "No route to host"; "Broken pipe"],
     SSHCreateSocketOp.ConnectionRefused);
    (any_of ["Operation timed out"; "Connection timed out"],
     SSHCreateSocketOp.Timeout) ].

Definition exec_rules : list (Rule SSHExecOp.SSHExecFailure) :=
  [ (any_of ["No such file"; "no such file"], SSHExecOp.SocketNotFound);
    (any_of ["Connection refused"; "Connection reset"],
     SSHExecOp.ConnectionFailed);
    (any_of ["Operation timed out"; "Connection timed out"],
     SSHExecOp.Timeout);
    (all_of ["Control socket"; "dead"], SSHExecOp.SocketDead) ].

End Classification.

(* ===================================================================== *)
(** ** [parseArgs.ts]: the arguments of the application *)
(* ===================================================================== *)

Module parseArgs.

(** [{ version?: boolean }] *)
Record Options := mkOptions {
  version : option bool
}.

(** [s.split(sep)] for a separator of one character: the pieces between
    the separators, of which there is always at least one. *)
Fixpoint split (sep : ascii) (s : string) : list string :=
  match s with
  | EmptyString => [EmptyString]
  | String c s' =>
      if Ascii.eqb c sep then EmptyString :: split sep s'
      else match split sep s' with
           | piece :: pieces => String c piece :: pieces
           | [] => [String c EmptyString]
           end
  end.

(** One turn of the loop: [const [key, _value] = arg.split("=")], then
    the test of [key]. *)
Definition parseArgs_step (result : Options) (arg : string) : Options :=
  match split "=" arg with
  | key :: _ =>
      if String.eqb key "--version" then mkOptions (Some true) else result
  | [] => result
  end.

Definition parseArgs (args : list string) : Options :=
  fold_left parseArgs_step args (mkOptions None).

End parseArgs.

(** The arguments that ask for the version: ["--version"] itself, and
    ["--version="] followed by anything. *)
Definition asks_for_version (arg : string) : Prop :=
  arg = "--version" \/ exists tail, arg = ("--version=" ++ tail)%string.

(* ===================================================================== *)
(** ** [SSHExecOp.ts]: the output of the command line *)
(* ===================================================================== *)

Module SSHExecOp_output.

(** [StreamOutput]; the optional fields are [None] while unset. Byte and
    character counts are natural numbers. *)
Record StreamOutput := mkStreamOutput {
  text : option string;
  base64 : option string;
  byteCount : nat;
  size : string;
  base64ByteCount : option nat;
  base64Size : option string
}.

(** The formats asked for on the command line,
    [values['stdout-format'] ?? []], narrowed as the script does: the
    default when none was given, and otherwise the known ones among
    those given. *)
Definition is_OutputFormat (f : string) : bool :=
  String.eqb f "utf-8" || String.eqb f "base64".

Definition selectFormats (rawFormats : option (list string)) : list string :=
  let raw := match rawFormats with Some l => l | None => [] end in
  if (0 <? List.length raw)%nat
  then List.filter is_OutputFormat raw
  else ["utf-8"].

(** One of the formats asked for is [format]. *)
Definition wants (format : string) (formats : list string) : bool :=
  List.existsb (fun f => String.eqb f format) formats.

Section Format.
Variable W : World.

(** [formatBytes] computes with floating-point logarithms and
    [buffer.toString('base64')] belongs to the runtime: both are kept
    as they are given. *)
Variable formatBytes : nat -> string.
Variable toBase64 : Buffer -> string.

(** The body of the loop of [formatOutput]. *)
Definition formatOutput_step (buffer : Buffer) (result : StreamOutput)
    (format : string) : StreamOutput :=
  if String.eqb format "utf-8" then
    mkStreamOutput (Some (buffer_toString W buffer)) (base64 result)
      (byteCount result) (size result)
      (base64ByteCount result) (base64Size result)
  else if String.eqb format "base64" then
    let base64Str := toBase64 buffer in
    mkStreamOutput (text result) (Some base64Str)
      (byteCount result) (size result)
      (Some (String.length base64Str))
      (Some (formatBytes (String.length base64Str)))
  else result.

Definition formatOutput (buffer : Buffer) (formats : list string)
  : StreamOutput :=
  fold_left (formatOutput_step buffer) formats
    (mkStreamOutput None None (List.length buffer)
       (formatBytes (List.length buffer)) None None).

End Format.

End SSHExecOp_output.

(* ===================================================================== *)
(** ** Worlds in which every child comes to an end *)
(* ===================================================================== *)

Module Liveness.

(** [spawn] threw, or the child emits ['close'] or ['error']. *)
Definition comes_to_an_end (s : Spawned) : bool :=
  match s with
  | spawn_throws _ => true
  | spawn_child events =>
      List.existsb (fun ev => negb (Observe.is_data ev)) events
  end.

Definition every_child_ends (W : World) : Prop :=
  forall h command args, comes_to_an_end (spawn W h command args) = true.

End Liveness.
(* ===================================================================== *)
(** ** Facts about strings *)
(* ===================================================================== *)

Section StringFacts.

Lemma startsWith_spec (s pat : string) :
  JsString.startsWith s pat = true <-> exists rest, s = pat ++ rest.
Proof.
  revert s; induction pat as [|p pat IH]; intros s; simpl.
  - split; [intros _; now exists s | reflexivity].
  - destruct s as [|c s].
    + split; [discriminate | intros [rest H]; discriminate].
    + rewrite andb_true_iff, IH. split.
      * intros [Hc [rest ->]]. apply Ascii.eqb_eq in Hc. subst. now exists rest.
      * intros [rest H]. injection H as -> ->. split.
        -- apply Ascii.eqb_refl.
        -- now exists rest.
Qed.

Lemma string_app_assoc (a b c : string) : (a ++ b) ++ c = a ++ (b ++ c).
Proof. induction a as [|x a IH]; simpl; [reflexivity | now rewrite IH]. Qed.

(** [includes] is the substring relation. *)
Lemma includes_spec (s pat : string) :
  JsString.includes s pat = true <->
  exists before after, s = before ++ pat ++ after.
Proof.
  induction s as [|c s IH].
  - simpl. rewrite orb_false_r, startsWith_spec. split.
    + intros [rest H]. now exists "", rest.
    + intros [[|x before] [after H]]; [now exists after | discriminate].
  - change (JsString.includes (String c s) pat)
      with (JsString.startsWith (String c s) pat || JsString.includes s pat).
    rewrite orb_true_iff, startsWith_spec, IH. split.
    + intros [[rest H] | [before [after H]]].
      * now exists "", rest.
      * exists (String c before), after. simpl. now rewrite H.
    + intros [[|x before] [after H]].
      * left. now exists after.
      * right. simpl in H. injection H as _ ->. now exists before, after.
Qed.

(** A text that contains a pattern contains every prefix of it. *)
Lemma includes_prefix (s p q : string) :
  JsString.includes s (p ++ q) = true -> JsString.includes s p = true.
Proof.
  rewrite !includes_spec. intros [before [after ->]].
  exists before, (q ++ after). now rewrite string_app_assoc.
Qed.

Lemma filter_forallb (p : ascii -> bool) (s : string) :
  JsString.forallb p (JsString.filter p s) = true.
Proof.
  induction s as [|c s IH]; simpl; [reflexivity |].
  destruct (p c) eqn:E; simpl; [now rewrite E | exact IH].
Qed.

End StringFacts.

(* ===================================================================== *)
(** ** The socket path *)
(* ===================================================================== *)

Lemma sanitized_spec (h : string) :
  SSHCreateSocketOp.sanitized h = SSHCreateSocketOp.spec_sanitize h.
Proof.
  unfold SSHCreateSocketOp.sanitized, SSHCreateSocketOp.spec_sanitize.
  induction h as [|c h IH]; [reflexivity |].
  cbn [JsString.replace_g JsString.map].
  rewrite (Ascii.eqb_sym "@" c).
  destruct (Ascii.eqb_spec c "@") as [-> | N1].
  { cbn. now rewrite IH. }
  cbn [JsString.replace_g orb].
  rewrite (Ascii.eqb_sym "." c).
  destruct (Ascii.eqb_spec c ".") as [-> | N2].
  { cbn. now rewrite IH. }
  cbn [JsString.replace_g orb].
  rewrite (Ascii.eqb_sym ":" c).
  destruct (Ascii.eqb_spec c ":") as [-> | N3].
  { cbn. now rewrite IH. }
  cbn [JsString.replace_g JsString.filter orb].
  destruct (JsString.alnum_or_dash c); cbn [negb append]; now rewrite IH.
Qed.

(** C2. Without an explicit socket path the resolved path is the fixed
    prefix followed by the sanitized host, where sanitizing turns every
    ['@'], ['.'] and [':'] into ['-'] and then drops every character
    outside [[A-Za-z0-9-]]; the path depends on the host only, everything
    after the prefix is in [[A-Za-z0-9-]], ["user@10.0.0.3"] gives
    ["/tmp/sshit-ctrl-user-10-0-0-3"], and the empty host gives the bare
    prefix. *)
Theorem getSocketPath_derived (h : string) (t1 s1 t2 s2 : Z) :
  SSHCreateSocketOp.getSocketPath (SSHCreateSocketOp.mk h None t1 s1)
    = "/tmp/sshit-ctrl-" ++ SSHCreateSocketOp.spec_sanitize h
  /\ JsString.forallb JsString.alnum_or_dash
       (SSHCreateSocketOp.spec_sanitize h) = true
  /\ SSHCreateSocketOp.getSocketPath (SSHCreateSocketOp.mk h None t1 s1)
     = SSHCreateSocketOp.getSocketPath (SSHCreateSocketOp.mk h None t2 s2)
  /\ SSHCreateSocketOp.getSocketPath
       (SSHCreateSocketOp.new "user@10.0.0.3" None None None)
     = "/tmp/sshit-ctrl-user-10-0-0-3"
  /\ SSHCreateSocketOp.getSocketPath
       (SSHCreateSocketOp.new "" None None None)
     = "/tmp/sshit-ctrl-".
Proof.
  repeat split.
  - unfold SSHCreateSocketOp.getSocketPath.
    cbn [SSHCreateSocketOp.socketPath SSHCreateSocketOp.host].
    now rewrite sanitized_spec.
  - apply filter_forallb.
Qed.

(** C9. An explicit socket path that is the empty string is falsy and is
    ignored: the path is derived from the host. Every non-empty explicit
    path is used as it is. *)
Theorem getSocketPath_explicit (h : string) (t s : Z) :
  SSHCreateSocketOp.getSocketPath (SSHCreateSocketOp.mk h (Some "") t s)
    = "/tmp/sshit-ctrl-" ++ SSHCreateSocketOp.sanitized h
  /\ forall (c : ascii) (p : string),
       SSHCreateSocketOp.getSocketPath
         (SSHCreateSocketOp.mk h (Some (String c p)) t s)
       = String c p.
Proof. split; reflexivity. Qed.

(* ===================================================================== *)
(** ** Running asynchronous computations *)
(* ===================================================================== *)

Import Observe.

Local Open Scope list_scope.

Section AsyncFacts.
Context {A B : Type}.

Lemma bind_run (m : Async A) (k : A -> Async B) (h : History) :
  bind m k h =
  match m h with
  | (h', Fulfilled a) => k a h'
  | (h', Pending) => (h', Pending)
  | (h', Rejected e) => (h', Rejected e)
  end.
Proof. reflexivity. Qed.

Lemma bind_fulfilled (m : Async A) (k : A -> Async B) (h h' : History) (a : A) :
  m h = (h', Fulfilled a) -> bind m k h = k a h'.
Proof. intros E. now rewrite bind_run, E. Qed.

Lemma catch_run (m : Async A) (handler : Thrown -> Async A) (h : History) :
  catch m handler h =
  match m h with
  | (h', Rejected e) => handler e h'
  | r => r
  end.
Proof. reflexivity. Qed.

Lemma catch_fulfilled (m : Async A) (handler : Thrown -> Async A)
    (h h' : History) (a : A) :
  m h = (h', Fulfilled a) -> catch m handler h = (h', Fulfilled a).
Proof. intros E. now rewrite catch_run, E. Qed.

Lemma ret_run (a : A) (h : History) :
  @ret Async _ A a h = (h, Fulfilled a).
Proof. reflexivity. Qed.

End AsyncFacts.

Lemma log_run (message : string) (h : History) :
  log message h = ((h ++ [Log message])%list, Fulfilled tt).
Proof. reflexivity. Qed.

Lemma logError_run (message : string) (h : History) :
  logError message h = ((h ++ [LogError message])%list, Fulfilled tt).
Proof. reflexivity. Qed.

Lemma runCommand_run (W : World) (command : string) (args : list string)
    (h : History) :
  runCommand W command args h
  = ((h ++ [Spawn command args])%list,
     runCommand_promise W (spawn W h command args)).
Proof. reflexivity. Qed.

Lemma runCommandBuffers_run (W : World) (command : string)
    (args : list string) (h : History) :
  runCommandBuffers W command args h
  = ((h ++ [Spawn command args])%list,
     runCommandBuffers_promise W (spawn W h command args)).
Proof. reflexivity. Qed.

(** The existence test that opens Check, Exec and Exit:
    [try { await stat(path) } catch { return fail(...) }]. *)
Lemma stat_found (W : World) (path : string) (h : History) :
  catch (stat W path ;; ret true) (fun _ => ret false) h
  = ((h ++ [Stat path])%list,
     Fulfilled (match fs_stat W h path with
                | None => true
                | Some _ => false
                end)).
Proof.
  rewrite catch_run, bind_run. unfold stat, call.
  destruct (fs_stat W h path); reflexivity.
Qed.

Lemma spawns_app (h1 h2 : History) :
  spawns (h1 ++ h2) = (spawns h1 ++ spawns h2)%list.
Proof. apply filter_app. Qed.

Lemma unlinks_app (h1 h2 : History) :
  unlinks (h1 ++ h2) = (unlinks h1 ++ unlinks h2)%list.
Proof. apply filter_app. Qed.

Ltac step_with E := rewrite bind_run, E.
Ltac step_log := rewrite bind_run, ?log_run, ?logError_run.

(* ===================================================================== *)
(** ** Check *)
(* ===================================================================== *)

(** C5. When the socket file cannot be [stat]ed, Check fails with
    [SocketNotFound] and spawns nothing. When the file is there, Check
    succeeds with [alive] if the [ssh -O check] command exits with 0
    and succeeds with [dead] if it exits with any other code. *)
Theorem Check_contract (W : World) (op : SSHCheckSocketOp.t) (h : History) :
  let path := SSHCheckSocketOp.socketPath op in
  let check := [ "-S"; path; "-O"; "check"; SSHCheckSocketOp.host op ] in
  (forall e, fs_stat W h path = Some e ->
     SSHCheckSocketOp.run W op h
       = ((h ++ [Stat path])%list,
          Fulfilled (Failure SSHCheckSocketOp.SocketNotFound
                       ("Control socket does not exist: " ++ path)))
     /\ spawns (calls_after (SSHCheckSocketOp.run W op) h) = spawns h)
  /\ (forall r, fs_stat W h path = None ->
        settles_to (runCommand W "ssh" check)
          ((h ++ [Stat path]) ++ [Log ("Checking socket health: " ++ path)])%list r ->
        (exitCode r = 0%Z ->
           settles_to (SSHCheckSocketOp.run W op) h
             (Success SSHCheckSocketOp.alive))
        /\ (exitCode r <> 0%Z ->
              settles_to (SSHCheckSocketOp.run W op) h
                (Success SSHCheckSocketOp.dead))).
Proof.
  intros path check.
  assert (Hstat_fails : forall e, fs_stat W h path = Some e ->
     SSHCheckSocketOp.run W op h
       = ((h ++ [Stat path])%list,
          Fulfilled (Failure SSHCheckSocketOp.SocketNotFound
                       ("Control socket does not exist: " ++ path)))).
  { intros e He. unfold SSHCheckSocketOp.run. fold path.
    rewrite catch_run, bind_run, stat_found, He. reflexivity. }
  split.
  - intros e He. split; [now apply (Hstat_fails e) |].
    unfold calls_after. rewrite (Hstat_fails e He). cbn [fst].
    rewrite spawns_app. apply app_nil_r.
  - intros r Hs Hr. unfold settles_to in *.
    rewrite runCommand_run in Hr. cbn [snd] in Hr.
    unfold SSHCheckSocketOp.run. fold path. fold check.
    rewrite catch_run, bind_run, stat_found, Hs. cbn [negb].
    rewrite bind_run, log_run, bind_run, runCommand_run, Hr.
    split; intros Hc.
    + rewrite Hc. cbn [Z.eqb]. rewrite bind_run, log_run. reflexivity.
    + apply Z.eqb_neq in Hc. rewrite Hc.
      rewrite bind_run, log_run. reflexivity.
Qed.

(** An exception of [spawn] reaches the [catch] of the operation and
    becomes the failure [UnknownError]. *)
Lemma Check_spawn_throws (W : World) (op : SSHCheckSocketOp.t) (h : History)
    (e : Thrown) :
  let path := SSHCheckSocketOp.socketPath op in
  fs_stat W h path = None ->
  spawn W ((h ++ [Stat path]) ++ [Log ("Checking socket health: " ++ path)])
    "ssh" [ "-S"; path; "-O"; "check"; SSHCheckSocketOp.host op ]
  = spawn_throws e ->
  settles_to (SSHCheckSocketOp.run W op) h
    (Failure SSHCheckSocketOp.UnknownError (message_of e)).
Proof.
  intros path Hs He. unfold settles_to, SSHCheckSocketOp.run. fold path.
  rewrite catch_run, bind_run, stat_found, Hs. cbn [negb].
  rewrite bind_run, log_run, bind_run, runCommand_run, He.
  cbn [runCommand_promise]. cbv zeta.
  rewrite bind_run, logError_run. reflexivity.
Qed.

Lemma Check_contract_witness :
  let gone := Scenario.world [] (spawn_child []) None in
  let live := Scenario.world ["/tmp/s"] (Scenario.ssh_prints 0 "Master running") None in
  let lost := Scenario.world ["/tmp/s"] (Scenario.ssh_fails 255 "Control socket connect(/tmp/s): Connection refused") None in
  let op := SSHCheckSocketOp.mk "/tmp/s" "user@host" in
  (SSHCheckSocketOp.run gone op []
   = ([Stat "/tmp/s"],
      Fulfilled (Failure SSHCheckSocketOp.SocketNotFound
                   "Control socket does not exist: /tmp/s"))
   /\ spawns (calls_after (SSHCheckSocketOp.run gone op) []) = [])
  /\ settles_to (SSHCheckSocketOp.run live op) [] (Success SSHCheckSocketOp.alive)
  /\ settles_to (SSHCheckSocketOp.run lost op) [] (Success SSHCheckSocketOp.dead).
Proof.
  intros gone live lost op. repeat apply conj.
  - apply (proj1 (Check_contract gone op []) Scenario.ENOENT). reflexivity.
  - apply (proj1 (Check_contract gone op []) Scenario.ENOENT). reflexivity.
  - refine (proj1 (proj2 (Check_contract live op [])
                     (mkShellResult 0 "Master running" "") _ _) _);
      reflexivity.
  - refine (proj2 (proj2 (Check_contract lost op [])
                     (mkShellResult 255 ""
                        "Control socket connect(/tmp/s): Connection refused")
                     _ _) _);
      [reflexivity | reflexivity | discriminate].
Defined.

(* ===================================================================== *)
(** ** Exit *)
(* ===================================================================== *)

(** Exit stops at a socket file that cannot be [stat]ed. *)
Lemma Exit_socket_missing (W : World) (op : SSHExitSocketOp.t) (h : History)
    (e : Thrown) :
  fs_stat W h (SSHExitSocketOp.socketPath op) = Some e ->
  SSHExitSocketOp.run W op h
  = (h ++ [Stat (SSHExitSocketOp.socketPath op)],
     Fulfilled (Failure SSHExitSocketOp.SocketNotFound
                  ("Control socket does not exist: "
                   ++ SSHExitSocketOp.socketPath op))).
Proof.
  intros He. unfold SSHExitSocketOp.run.
  rewrite catch_run, bind_run, stat_found, He. reflexivity.
Qed.

(** C6, as the code has it. When the socket file cannot be [stat]ed,
    Exit fails with [SocketNotFound]. With the file in place, once the
    [ssh -O exit] command has ended with an exit code, Exit succeeds
    whatever that code is, with [true] when it is 0 and with [false]
    when it is not: a nonzero exit is never a failure. With the file in
    place Exit fails in one case only, and then with [UnknownError] and
    the message of what was thrown: when the promise of the command is
    rejected, as it is when [spawn] throws. *)
Theorem Exit_contract (W : World) (op : SSHExitSocketOp.t) (h : History) :
  let path := SSHExitSocketOp.socketPath op in
  let exit := [ "-S"; path; "-O"; "exit"; SSHExitSocketOp.host op ] in
  let h1 := (h ++ [Stat path]) ++ [Log ("Requesting socket exit: " ++ path)] in
  (forall e, fs_stat W h path = Some e ->
     SSHExitSocketOp.run W op h
       = (h ++ [Stat path],
          Fulfilled (Failure SSHExitSocketOp.SocketNotFound
                       ("Control socket does not exist: " ++ path))))
  /\ (forall r, fs_stat W h path = None ->
        settles_to (runCommand W "ssh" exit) h1 r ->
        (exitCode r = 0%Z ->
           settles_to (SSHExitSocketOp.run W op) h (Success true))
        /\ (exitCode r <> 0%Z ->
              settles_to (SSHExitSocketOp.run W op) h (Success false)))
  /\ (forall e, fs_stat W h path = None ->
        snd (runCommand W "ssh" exit h1) = Rejected e ->
        settles_to (SSHExitSocketOp.run W op) h
          (Failure SSHExitSocketOp.UnknownError (message_of e)))
  /\ (forall f d, fs_stat W h path = None ->
        settles_to (SSHExitSocketOp.run W op) h (Failure f d) ->
        f = SSHExitSocketOp.UnknownError
        /\ exists e,
             snd (runCommand W "ssh" exit h1) = Rejected e
             /\ d = message_of e).
Proof.
  intros path exit h1.
  assert (Hrun : fs_stat W h path = None ->
    SSHExitSocketOp.run W op h =
    match snd (runCommand W "ssh" exit h1) with
    | Pending => (h1 ++ [Spawn "ssh" exit], Pending)
    | Fulfilled r =>
        ((h1 ++ [Spawn "ssh" exit])
         ++ [Log (if (exitCode r =? 0)%Z
                  then "Socket exited cleanly"
                  else "Socket exit command failed (may already be dead)")],
         Fulfilled (Success (exitCode r =? 0)%Z))
    | Rejected e =>
        ((h1 ++ [Spawn "ssh" exit])
         ++ [LogError ("Exception: " ++ message_of e)],
         Fulfilled (Failure SSHExitSocketOp.UnknownError (message_of e)))
    end).
  { intros Hs. unfold SSHExitSocketOp.run. fold path. fold exit.
    rewrite catch_run, bind_run, stat_found, Hs. cbn [negb].
    rewrite bind_run, log_run, bind_run. fold h1.
    rewrite runCommand_run. cbn [snd].
    destruct (runCommand_promise W _) as [ | r | e]; reflexivity. }
  split; [| split; [| split]].
  - intros e He. now apply Exit_socket_missing with (e := e).
  - intros r Hs Hr. unfold settles_to in *.
    rewrite (Hrun Hs), Hr. cbn [snd]. split; intros Hc.
    + now rewrite Hc.
    + apply Z.eqb_neq in Hc. now rewrite Hc.
  - intros e Hs He. unfold settles_to. now rewrite (Hrun Hs), He.
  - intros f d Hs. unfold settles_to. rewrite (Hrun Hs).
    destruct (snd (runCommand W "ssh" exit h1)) as [ | r | e];
      cbn [snd]; try discriminate.
    intros H. inversion H; subst. split; [reflexivity |]. now exists e.
Qed.

Lemma Exit_contract_witness :
  let op := SSHExitSocketOp.mk "/tmp/s" "user@host" in
  let gone := Scenario.world [] (spawn_child []) None in
  let live :=
    Scenario.world ["/tmp/s"] (Scenario.ssh_prints 0 "Exit request sent.")
      None in
  let lost :=
    Scenario.world ["/tmp/s"]
      (Scenario.ssh_fails 255
         "Control socket connect(/tmp/s): Connection refused")
      None in
  let stuck := Scenario.world ["/tmp/s"] (spawn_throws Scenario.E2BIG) None in
  SSHExitSocketOp.run gone op []
   = ([Stat "/tmp/s"],
      Fulfilled (Failure SSHExitSocketOp.SocketNotFound
                   "Control socket does not exist: /tmp/s"))
  /\ settles_to (SSHExitSocketOp.run live op) [] (Success true)
  /\ settles_to (SSHExitSocketOp.run lost op) [] (Success false)
  /\ settles_to (SSHExitSocketOp.run stuck op) []
       (Failure SSHExitSocketOp.UnknownError "spawn E2BIG")
  /\ (SSHExitSocketOp.UnknownError = SSHExitSocketOp.UnknownError
      /\ exists e,
           snd (runCommand stuck "ssh"
                  ["-S"; "/tmp/s"; "-O"; "exit"; "user@host"]
                  [Stat "/tmp/s"; Log "Requesting socket exit: /tmp/s"])
           = Rejected e
           /\ "spawn E2BIG" = message_of e).
Proof.
  intros op gone live lost stuck. repeat apply conj.
  - apply (proj1 (Exit_contract gone op []) Scenario.ENOENT). reflexivity.
  - refine (proj1 (proj1 (proj2 (Exit_contract live op []))
                     (mkShellResult 0 "Exit request sent." "") _ _) _);
      reflexivity.
  - refine (proj2 (proj1 (proj2 (Exit_contract lost op []))
                     (mkShellResult 255 ""
                        "Control socket connect(/tmp/s): Connection refused")
                     _ _) _);
      [reflexivity | reflexivity | discriminate].
  - apply (proj1 (proj2 (proj2 (Exit_contract stuck op [])))
             Scenario.E2BIG); reflexivity.
  - apply (proj2 (proj2 (proj2 (Exit_contract stuck op [])))
             SSHExitSocketOp.UnknownError "spawn E2BIG"); reflexivity.
  - apply (proj2 (proj2 (proj2 (Exit_contract stuck op [])))
             SSHExitSocketOp.UnknownError "spawn E2BIG"); reflexivity.
Defined.

(** C6, as stated, fails: it is not so that Exit succeeds whenever the
    socket file is there. With the file in place and a [spawn] that
    throws, the [catch] of [run] answers with the failure
    [UnknownError]. *)
Lemma Exit_fails_with_the_file_present :
  let op := SSHExitSocketOp.mk "/tmp/s" "user@host" in
  let stuck := Scenario.world ["/tmp/s"] (spawn_throws Scenario.E2BIG) None in
  fs_stat stuck [] (SSHExitSocketOp.socketPath op) = None
  /\ settles_to (SSHExitSocketOp.run stuck op) []
       (Failure SSHExitSocketOp.UnknownError "spawn E2BIG")
  /\ ~ (forall (W : World) (op : SSHExitSocketOp.t) (h : History),
          fs_stat W h (SSHExitSocketOp.socketPath op) = None ->
          exists exitedCleanly : bool,
            settles_to (SSHExitSocketOp.run W op) h (Success exitedCleanly)).
Proof.
  intros op stuck. split; [reflexivity | split; [reflexivity |]].
  intros H. destruct (H stuck op [] eq_refl) as [b Hb]. discriminate Hb.
Qed.

(* ===================================================================== *)
(** ** Exec *)
(* ===================================================================== *)

Ltac exec_done :=
  do 2 eexists;
  split; [reflexivity | split; [cbn [In]; auto 6 | split; reflexivity]].

Ltac exec_case text pattern :=
  destruct (JsString.includes text pattern) eqn:?;
  cbn [orb andb]; [try exec_done |].

(** C4. With the socket file in place: when [ssh] ends with code 255,
    Exec fails, with the kind the first matching rule of the ordered
    table gives among [SocketNotFound], [ConnectionFailed], [Timeout]
    and [SocketDead], and with [ConnectionFailed] and the captured
    standard error in the diagnostic when no rule matches; when [ssh]
    ends with any other code, Exec succeeds with that code and with
    both outputs as text and as bytes. *)
Theorem Exec_contract (W : World) (op : SSHExecOp.t) (h : History)
    (r : ShellResultBuffers) :
  let path := SSHExecOp.socketPath op in
  let stderr := buffer_toString W (stderrBuffer r) in
  fs_stat W h path = None ->
  settles_to (runCommandBuffers W "ssh" (SSHExecOp.ssh_args op))
    ((h ++ [Stat path])
     ++ [Log ("Executing on " ++ SSHExecOp.host op ++ " via " ++ path
              ++ ": " ++ SSHExecOp.command op)]) r ->
  (bExitCode r = 255%Z ->
     exists kind debugData,
       settles_to (SSHExecOp.run W op) h (Failure kind debugData)
       /\ In kind [ SSHExecOp.SocketNotFound; SSHExecOp.ConnectionFailed;
                    SSHExecOp.Timeout; SSHExecOp.SocketDead ]
       /\ match Classification.first_match Classification.exec_rules stderr with
          | Some k => kind = k /\ debugData = stderr
          | None => kind = SSHExecOp.ConnectionFailed
                    /\ debugData = ("Exit 255: " ++ stderr)%string
          end)
  /\ (bExitCode r <> 255%Z ->
        settles_to (SSHExecOp.run W op) h
          (Success
             (SSHExecOp.mkExecResult (bExitCode r)
                (buffer_toString W (stdoutBuffer r)) stderr
                (stdoutBuffer r) (stderrBuffer r)))).
Proof.
  intros path stderr Hs Hr. unfold settles_to in *.
  rewrite runCommandBuffers_run in Hr. cbn [snd] in Hr.
  unfold SSHExecOp.run. fold path.
  rewrite catch_run, bind_run, stat_found, Hs. cbn [negb].
  rewrite bind_run, log_run, bind_run, runCommandBuffers_run, Hr.
  cbv zeta. fold stderr. split; intros Hc.
  - rewrite Hc. cbn [Z.eqb Pos.eqb].
    cbn [Classification.first_match Classification.exec_rules
         Classification.any_of Classification.all_of existsb forallb].
    rewrite ?orb_false_r, ?andb_true_r.
    exec_case stderr "No such file".
    exec_case stderr "no such file".
    exec_case stderr "Connection refused".
    exec_case stderr "Connection reset".
    exec_case stderr "Operation timed out".
    exec_case stderr "Connection timed out".
    exec_case stderr "Control socket"; [| exec_done].
    exec_case stderr "dead". exec_done.
  - apply Z.eqb_neq in Hc. rewrite Hc.
    rewrite bind_run, log_run. reflexivity.
Qed.

Lemma Exec_contract_witness :
  let op := SSHExecOp.new "/tmp/s" "user@host" "ls /nowhere" None in
  let lost :=
    Scenario.world ["/tmp/s"]
      (Scenario.ssh_fails 255 "Control socket connect(/tmp/s): Connection refused")
      None in
  let ran :=
    Scenario.world ["/tmp/s"]
      (Scenario.ssh_fails 2 "ls: cannot access") None in
  (exists kind debugData,
     settles_to (SSHExecOp.run lost op) [] (Failure kind debugData)
     /\ In kind [ SSHExecOp.SocketNotFound; SSHExecOp.ConnectionFailed;
                  SSHExecOp.Timeout; SSHExecOp.SocketDead ]
     /\ kind = SSHExecOp.ConnectionFailed
     /\ debugData = "Control socket connect(/tmp/s): Connection refused"%string)
  /\ settles_to (SSHExecOp.run ran op) []
       (Success
          (SSHExecOp.mkExecResult 2 "" "ls: cannot access"
             [] (list_byte_of_string "ls: cannot access"))).
Proof.
  intros op lost ran. split.
  - apply (proj1 (Exec_contract lost op []
                    (mkShellResultBuffers 255 []
                       (list_byte_of_string
                          "Control socket connect(/tmp/s): Connection refused"))
                    eq_refl eq_refl));
      reflexivity.
  - apply (proj2 (Exec_contract ran op []
                    (mkShellResultBuffers 2 []
                       (list_byte_of_string "ls: cannot access"))
                    eq_refl eq_refl));
      discriminate.
Defined.

(* ===================================================================== *)
(** ** Validate *)
(* ===================================================================== *)

(** What Validate leaves, by what its Check leaves. *)
Lemma Validate_run_cases (W : World) (op : ValidateSocketOp.t) (h : History) :
  snd (ValidateSocketOp.run W op h) =
  match
    snd (SSHCheckSocketOp.run W
           (SSHCheckSocketOp.mk (ValidateSocketOp.socketPath op)
              (ValidateSocketOp.host op))
           (h ++ [Log ("Validating socket: " ++ ValidateSocketOp.socketPath op)]))
  with
  | Pending => Pending
  | Rejected e =>
      Fulfilled (Failure ValidateSocketOp.UnknownError (message_of e))
  | Fulfilled (Success s) =>
      Fulfilled (Success (ValidateSocketOp.mkValidationResult
                            (ValidateSocketOp.is_alive s)
                            (ValidateSocketOp.of_SocketStatus s)))
  | Fulfilled (Failure SSHCheckSocketOp.SocketNotFound _) =>
      Fulfilled (Success (ValidateSocketOp.mkValidationResult false
                            ValidateSocketOp.not_found))
  | Fulfilled (Failure SSHCheckSocketOp.UnknownError d) =>
      Fulfilled (Failure ValidateSocketOp.UnknownError d)
  end.
Proof.
  unfold ValidateSocketOp.run.
  rewrite catch_run, bind_run, log_run, bind_run.
  destruct (SSHCheckSocketOp.run W _ _) as [h1 [ | [s | [] d] | e]];
    reflexivity.
Qed.

(** C7. Validate turns a Check that fails with [SocketNotFound] into
    the success [{valid: false, status: 'not-found'}], a Check that
    succeeds with [alive] or [dead] into the success with that status
    and [valid] set exactly for [alive], and any other failure of Check
    into the failure [UnknownError]. Every validation result that
    Validate succeeds with has [valid] set if and only if its status is
    [alive]. *)
Theorem Validate_contract (W : World) (op : ValidateSocketOp.t) (h : History) :
  let path := ValidateSocketOp.socketPath op in
  let check :=
    SSHCheckSocketOp.run W
      (SSHCheckSocketOp.mk path (ValidateSocketOp.host op)) in
  let h0 := h ++ [Log ("Validating socket: " ++ path)] in
  (forall d,
     settles_to check h0 (Failure SSHCheckSocketOp.SocketNotFound d) ->
     settles_to (ValidateSocketOp.run W op) h
       (Success (ValidateSocketOp.mkValidationResult false
                   ValidateSocketOp.not_found)))
  /\ (settles_to check h0 (Success SSHCheckSocketOp.alive) ->
      settles_to (ValidateSocketOp.run W op) h
        (Success (ValidateSocketOp.mkValidationResult true
                    ValidateSocketOp.alive)))
  /\ (settles_to check h0 (Success SSHCheckSocketOp.dead) ->
      settles_to (ValidateSocketOp.run W op) h
        (Success (ValidateSocketOp.mkValidationResult false
                    ValidateSocketOp.dead)))
  /\ (forall f d,
        f <> SSHCheckSocketOp.SocketNotFound ->
        settles_to check h0 (Failure f d) ->
        settles_to (ValidateSocketOp.run W op) h
          (Failure ValidateSocketOp.UnknownError d))
  /\ (forall v,
        settles_to (ValidateSocketOp.run W op) h (Success v) ->
        (ValidateSocketOp.valid v = true
         <-> ValidateSocketOp.status v = ValidateSocketOp.alive)).
Proof.
  intros path check h0. unfold settles_to.
  rewrite Validate_run_cases. fold path. fold h0. fold check.
  destruct (snd (check h0)) as [ | [[] | [] d0] | e].
  all: repeat split; intros; try discriminate; try congruence.
  all: try match goal with
         | H : Fulfilled _ = Fulfilled _ |- _ => injection H as <-
         end.
  all: cbn in *; congruence.
Qed.

Lemma Validate_contract_witness :
  let op := ValidateSocketOp.mk "/tmp/s" "user@host" in
  let gone := Scenario.world [] (spawn_child []) None in
  let live :=
    Scenario.world ["/tmp/s"] (Scenario.ssh_prints 0 "Master running") None in
  let lost :=
    Scenario.world ["/tmp/s"] (Scenario.ssh_fails 255 "Connection refused") None in
  let stuck :=
    Scenario.world ["/tmp/s"] (spawn_throws Scenario.E2BIG) None in
  settles_to (ValidateSocketOp.run gone op) []
    (Success (ValidateSocketOp.mkValidationResult false
                ValidateSocketOp.not_found))
  /\ settles_to (ValidateSocketOp.run live op) []
       (Success (ValidateSocketOp.mkValidationResult true
                   ValidateSocketOp.alive))
  /\ settles_to (ValidateSocketOp.run lost op) []
       (Success (ValidateSocketOp.mkValidationResult false
                   ValidateSocketOp.dead))
  /\ settles_to (ValidateSocketOp.run stuck op) []
       (Failure ValidateSocketOp.UnknownError "spawn E2BIG")
  /\ (ValidateSocketOp.valid
        (ValidateSocketOp.mkValidationResult true ValidateSocketOp.alive)
      = true
      <-> ValidateSocketOp.alive = ValidateSocketOp.alive).
Proof.
  intros op gone live lost stuck. repeat apply conj.
  - apply (proj1 (Validate_contract gone op [])
             "Control socket does not exist: /tmp/s"). reflexivity.
  - apply (proj1 (proj2 (Validate_contract live op []))). reflexivity.
  - apply (proj1 (proj2 (proj2 (Validate_contract lost op [])))). reflexivity.
  - apply (proj1 (proj2 (proj2 (proj2 (Validate_contract stuck op []))))
             SSHCheckSocketOp.UnknownError "spawn E2BIG");
      [discriminate | reflexivity].
  - apply (proj2 (proj2 (proj2 (proj2 (Validate_contract live op []))))
             (ValidateSocketOp.mkValidationResult true ValidateSocketOp.alive)).
    reflexivity.
  - apply (proj2 (proj2 (proj2 (proj2 (Validate_contract live op []))))
             (ValidateSocketOp.mkValidationResult true ValidateSocketOp.alive)).
    reflexivity.
Defined.

(* ===================================================================== *)
(** ** TearDown *)
(* ===================================================================== *)

(** Exit never unlinks anything. *)
Lemma Exit_no_unlink (W : World) (op : SSHExitSocketOp.t) (h : History) :
  unlinks (calls_after (SSHExitSocketOp.run W op) h) = unlinks h.
Proof.
  unfold calls_after, SSHExitSocketOp.run.
  rewrite catch_run, bind_run, stat_found.
  destruct (fs_stat W h (SSHExitSocketOp.socketPath op)); cbn [negb].
  - cbn [fst ret Monad_Async Async_ret].
    rewrite unlinks_app. apply app_nil_r.
  - rewrite bind_run, log_run, bind_run, runCommand_run.
    destruct (runCommand_promise W _) as [ | r | e].
    + cbn [fst]. rewrite !unlinks_app. cbn. now rewrite !app_nil_r.
    + cbv zeta. rewrite bind_run, log_run. cbn [fst ret Monad_Async Async_ret].
      rewrite !unlinks_app. cbn. now rewrite !app_nil_r.
    + rewrite bind_run, logError_run. cbn [fst ret Monad_Async Async_ret].
      rewrite !unlinks_app. cbn. now rewrite !app_nil_r.
Qed.

(** What TearDown does, by what its two steps leave. *)
Lemma TearDown_run_cases (W : World) (op : TearDownSocketOp.t) (h : History) :
  let path := TearDownSocketOp.socketPath op in
  let caught (e : Thrown) (h' : History) :=
    (h' ++ [LogError ("Exception: " ++ message_of e)],
     Fulfilled (Failure TearDownSocketOp.UnknownError (message_of e))) in
  TearDownSocketOp.run W op h =
  match
    SSHExitSocketOp.run W
      (SSHExitSocketOp.mk path (TearDownSocketOp.host op))
      (h ++ [Log ("Tearing down socket: " ++ path)])
  with
  | (h1, Pending) => (h1, Pending)
  | (h1, Rejected e) => caught e h1
  | (h1, Fulfilled (Failure SSHExitSocketOp.SocketNotFound _)) =>
      (h1 ++ [Log "Socket file does not exist, nothing to tear down"],
       Fulfilled (Success (TearDownSocketOp.mkTearDownResult false false)))
  | (h1, Fulfilled exitOutcome) =>
      let exitedCleanly :=
        match exitOutcome with
        | Success value => value
        | Failure _ _ => false
        end in
      match RemoveSocketFileOp.run W (RemoveSocketFileOp.mk path) h1 with
      | (h2, Pending) => (h2, Pending)
      | (h2, Rejected e) => caught e h2
      | (h2, Fulfilled (Failure RemoveSocketFileOp.FileNotFound _)) =>
          (h2 ++ [Log "Socket file already removed"],
           Fulfilled (Success (TearDownSocketOp.mkTearDownResult
                                 exitedCleanly false)))
      | (h2, Fulfilled (Failure _ debugData)) =>
          (h2, Fulfilled (Failure TearDownSocketOp.RemoveFailed debugData))
      | (h2, Fulfilled (Success _)) =>
          (h2 ++ [Log "Socket torn down successfully"],
           Fulfilled (Success (TearDownSocketOp.mkTearDownResult
                                 exitedCleanly true)))
      end
  end.
Proof.
  intros path caught. unfold TearDownSocketOp.run. fold path.
  rewrite catch_run, bind_run, log_run, bind_run.
  destruct (SSHExitSocketOp.run W _ _) as [h1 [ | [b | [] d] | e]];
    try reflexivity.
  all: cbv zeta; rewrite bind_run.
  all: destruct (RemoveSocketFileOp.run W _ _) as [h2 [ | [b' | [] d'] | e']];
    reflexivity.
Qed.

(** C3. When the Exit step fails with [SocketNotFound], TearDown
    succeeds with [{exitedCleanly: false, fileRemoved: false}] and
    unlinks nothing. When the removal step fails with [FileNotFound],
    TearDown succeeds with [fileRemoved: false]; when it fails in any
    other way, TearDown fails with [RemoveFailed]. So TearDown of a
    socket path that cannot be [stat]ed, as one that was never created,
    succeeds with both fields false. *)
Theorem TearDown_contract (W : World) (op : TearDownSocketOp.t) (h : History) :
  let path := TearDownSocketOp.socketPath op in
  let exit :=
    SSHExitSocketOp.run W
      (SSHExitSocketOp.mk path (TearDownSocketOp.host op)) in
  let remove := RemoveSocketFileOp.run W (RemoveSocketFileOp.mk path) in
  let h0 := h ++ [Log ("Tearing down socket: " ++ path)] in
  (forall d,
     settles_to exit h0 (Failure SSHExitSocketOp.SocketNotFound d) ->
     settles_to (TearDownSocketOp.run W op) h
       (Success (TearDownSocketOp.mkTearDownResult false false))
     /\ unlinks (calls_after (TearDownSocketOp.run W op) h) = unlinks h)
  /\ (forall exitOutcome,
        settles_to exit h0 exitOutcome ->
        (forall d, exitOutcome <> Failure SSHExitSocketOp.SocketNotFound d) ->
        (forall d,
           settles_to remove (calls_after exit h0)
             (Failure RemoveSocketFileOp.FileNotFound d) ->
           settles_to (TearDownSocketOp.run W op) h
             (Success (TearDownSocketOp.mkTearDownResult
                         (match exitOutcome with
                          | Success value => value
                          | Failure _ _ => false
                          end)
                         false)))
        /\ (forall f d,
              f <> RemoveSocketFileOp.FileNotFound ->
              settles_to remove (calls_after exit h0) (Failure f d) ->
              settles_to (TearDownSocketOp.run W op) h
                (Failure TearDownSocketOp.RemoveFailed d)))
  /\ (forall e,
        fs_stat W h0 path = Some e ->
        settles_to (TearDownSocketOp.run W op) h
          (Success (TearDownSocketOp.mkTearDownResult false false))).
Proof.
  intros path exit remove h0.
  assert (Hnotfound : forall d,
    settles_to exit h0 (Failure SSHExitSocketOp.SocketNotFound d) ->
    settles_to (TearDownSocketOp.run W op) h
      (Success (TearDownSocketOp.mkTearDownResult false false))
    /\ unlinks (calls_after (TearDownSocketOp.run W op) h) = unlinks h).
  { intros d Hexit. unfold settles_to, calls_after in *.
    pose proof (Exit_no_unlink W
                  (SSHExitSocketOp.mk path (TearDownSocketOp.host op)) h0)
      as Hno.
    unfold calls_after in Hno. fold exit in Hno.
    rewrite TearDown_run_cases. fold path. fold h0. fold exit.
    destruct (exit h0) as [h1 p]. cbn [fst snd] in *. subst p.
    cbn [fst snd]. split; [reflexivity |].
    rewrite unlinks_app, Hno. unfold h0. rewrite unlinks_app.
    cbn. now rewrite !app_nil_r. }
  split; [exact Hnotfound | split].
  - intros exitOutcome Hexit Hother. unfold settles_to, calls_after in *.
    rewrite TearDown_run_cases. fold path. fold h0. fold exit. fold remove.
    destruct (exit h0) as [h1 p]. cbn [fst snd] in *. subst p.
    split.
    + intros d Hrem.
      destruct exitOutcome as [b | [] d0];
        try (exfalso; now apply (Hother d0)).
      all: cbv zeta; destruct (remove h1) as [h2 q];
        cbn [snd] in Hrem; subst q; reflexivity.
    + intros f d Hf Hrem.
      destruct exitOutcome as [b | [] d0];
        try (exfalso; now apply (Hother d0)).
      all: cbv zeta; destruct (remove h1) as [h2 q];
        cbn [snd] in Hrem; subst q;
        destruct f; try reflexivity; now contradiction Hf.
  - intros e He. apply (Hnotfound ("Control socket does not exist: " ++ path)%string).
    unfold settles_to, exit.
    rewrite (Exit_socket_missing W
               (SSHExitSocketOp.mk path (TearDownSocketOp.host op)) h0 e He).
    reflexivity.
Qed.

Lemma TearDown_contract_witness :
  let op := TearDownSocketOp.mk "/tmp/s" "user@host" in
  let gone := Scenario.world [] (spawn_child []) None in
  let raced :=
    Scenario.world ["/tmp/s"] (Scenario.ssh_prints 0 "Exit request sent.")
      (Some Scenario.ENOENT) in
  let denied :=
    Scenario.world ["/tmp/s"] (Scenario.ssh_fails 255 "Connection refused")
      (Some Scenario.EACCES) in
  (settles_to (TearDownSocketOp.run gone op) []
     (Success (TearDownSocketOp.mkTearDownResult false false))
   /\ unlinks (calls_after (TearDownSocketOp.run gone op) []) = [])
  /\ settles_to (TearDownSocketOp.run raced op) []
       (Success (TearDownSocketOp.mkTearDownResult true false))
  /\ settles_to (TearDownSocketOp.run denied op) []
       (Failure TearDownSocketOp.RemoveFailed "Permission denied: /tmp/s")
  /\ settles_to (TearDownSocketOp.run gone op) []
       (Success (TearDownSocketOp.mkTearDownResult false false)).
Proof.
  intros op gone raced denied. repeat apply conj.
  - apply (proj1 (TearDown_contract gone op [])
             "Control socket does not exist: /tmp/s"). reflexivity.
  - apply (proj1 (TearDown_contract gone op [])
             "Control socket does not exist: /tmp/s"). reflexivity.
  - refine (proj1 (proj1 (proj2 (TearDown_contract raced op []))
                     (Success true) _ _)
              "File does not exist: /tmp/s" _);
      [reflexivity | discriminate | reflexivity].
  - refine (proj2 (proj1 (proj2 (TearDown_contract denied op []))
                     (Success false) _ _)
              RemoveSocketFileOp.PermissionDenied
              "Permission denied: /tmp/s" _ _);
      [reflexivity | discriminate | discriminate | reflexivity].
  - apply (proj2 (proj2 (TearDown_contract gone op [])) Scenario.ENOENT).
    reflexivity.
Defined.

(* ===================================================================== *)
(** ** Create *)
(* ===================================================================== *)

Ltac create_case text pattern :=
  destruct (JsString.includes text pattern) eqn:?;
  cbn [orb andb]; [try reflexivity |].

(** The chain of tests in [run] of [src/SSHCreateSocketOp.ts] decides as
    the ordered table does. *)
Lemma Create_run_failed (W : World) (op : SSHCreateSocketOp.t) (h : History)
    (r : ShellResult) :
  let path := SSHCreateSocketOp.getSocketPath op in
  settles_to (runCommand W "ssh" (SSHCreateSocketOp.ssh_args op path))
    (h ++ [Log ("Creating control socket at " ++ path ++ " for "
                ++ SSHCreateSocketOp.host op)]) r ->
  exitCode r <> 0%Z ->
  snd (SSHCreateSocketOp.run W op h) =
  Fulfilled
    match Classification.first_match Classification.create_rules (stderr r) with
    | Some kind => Failure kind (stderr r)
    | None =>
        Failure SSHCreateSocketOp.UnknownError
          ("Exit code " ++ JsString.of_number (exitCode r) ++ ": " ++ stderr r)
    end.
Proof.
  intros path Hr Hc. unfold settles_to in Hr.
  rewrite runCommand_run in Hr. cbn [snd] in Hr.
  apply Z.eqb_neq in Hc.
  unfold SSHCreateSocketOp.run. fold path. cbv zeta.
  rewrite catch_run, bind_run, log_run, bind_run, runCommand_run, Hr, Hc.
  rewrite bind_run, logError_run.
  cbn [Classification.first_match Classification.create_rules
       Classification.any_of existsb].
  rewrite ?orb_false_r.
  set (text := stderr r).
  create_case text "Permission denied (publickey".
  create_case text "Permission denied".
  create_case text "Authentication failed".
  create_case text "REMOTE HOST IDENTIFICATION HAS CHANGED".
  create_case text "Host key verification failed".
  create_case text "Could not resolve hostname".
  create_case text "Name or service not known".
  create_case text "Connection refused".
  create_case text "Network is unreachable".
  create_case text "No route to host".
  create_case text "Broken pipe".
  create_case text "Operation timed out".
  create_case text "Connection timed out".
  reflexivity.
Qed.

(** Create of [src/SSHCreateSocketOp.ts]. After a nonzero exit the failure
    kind is that of the first rule of the ordered table that matches the
    captured standard error; a text with ["Permission denied
    (publickey"] in it, which the generic ["Permission denied"] rule
    matches too, gives [PermissionDenied]; a text that no rule matches
    gives [UnknownError] with the exit code and the text in the
    diagnostic. *)
Theorem Create_classification (W : World) (op : SSHCreateSocketOp.t)
    (h : History) (r : ShellResult) :
  let path := SSHCreateSocketOp.getSocketPath op in
  settles_to (runCommand W "ssh" (SSHCreateSocketOp.ssh_args op path))
    (h ++ [Log ("Creating control socket at " ++ path ++ " for "
                ++ SSHCreateSocketOp.host op)]) r ->
  exitCode r <> 0%Z ->
  (forall kind,
     Classification.first_match Classification.create_rules (stderr r)
       = Some kind ->
     settles_to (SSHCreateSocketOp.run W op) h (Failure kind (stderr r)))
  /\ (forall before after,
        stderr r = (before ++ "Permission denied (publickey" ++ after)%string ->
        JsString.includes (stderr r) "Permission denied" = true
        /\ settles_to (SSHCreateSocketOp.run W op) h
             (Failure SSHCreateSocketOp.PermissionDenied (stderr r)))
  /\ (Classification.first_match Classification.create_rules (stderr r)
        = None ->
      settles_to (SSHCreateSocketOp.run W op) h
        (Failure SSHCreateSocketOp.UnknownError
           ("Exit code " ++ JsString.of_number (exitCode r) ++ ": "
            ++ stderr r))).
Proof.
  intros path Hr Hc. unfold settles_to.
  rewrite (Create_run_failed W op h r Hr Hc).
  repeat split.
  - intros kind ->. reflexivity.
  - apply (includes_prefix _ "Permission denied" " (publickey").
    apply includes_spec. now exists before, after.
  - assert (Hpk : JsString.includes (stderr r) "Permission denied (publickey"
                  = true)
      by (apply includes_spec; now exists before, after).
    cbn [Classification.first_match Classification.create_rules
         Classification.any_of existsb].
    now rewrite Hpk.
  - intros ->. reflexivity.
Qed.

Lemma Create_classification_witness :
  let op := SSHCreateSocketOp.new "user@host" None None None in
  let text := "user@host: Permission denied (publickey,password)." in
  let refused := Scenario.world [] (Scenario.ssh_fails 255 text) None in
  let odd := Scenario.world [] (Scenario.ssh_fails 3 "ssh: unexpected") None in
  settles_to (SSHCreateSocketOp.run refused op) []
    (Failure SSHCreateSocketOp.PermissionDenied text)
  /\ (JsString.includes text "Permission denied" = true
      /\ settles_to (SSHCreateSocketOp.run refused op) []
           (Failure SSHCreateSocketOp.PermissionDenied text))
  /\ settles_to (SSHCreateSocketOp.run odd op) []
       (Failure SSHCreateSocketOp.UnknownError "Exit code 3: ssh: unexpected").
Proof.
  intros op text refused odd. repeat apply conj.
  - refine (proj1 (Create_classification refused op []
                     (mkShellResult 255 "" text) _ _) _ _);
      [reflexivity | discriminate | reflexivity].
  - refine (proj1 (proj1 (proj2 (Create_classification refused op []
                     (mkShellResult 255 "" text) _ _))
                     "user@host: " ",password)." _));
      [reflexivity | discriminate | reflexivity].
  - refine (proj2 (proj1 (proj2 (Create_classification refused op []
                     (mkShellResult 255 "" text) _ _))
                     "user@host: " ",password)." _));
      [reflexivity | discriminate | reflexivity].
  - refine (proj2 (proj2 (Create_classification odd op []
                     (mkShellResult 3 "" "ssh: unexpected") _ _)) _);
      [reflexivity | discriminate | reflexivity].
Defined.

(** The copy of Create in [src/unnamed/part_000] tests the generic
    ["Permission denied"] before the publickey pattern: after a nonzero
    exit, every text with ["Permission denied (publickey"] in it gives
    [AuthenticationFailed]. *)
Lemma Create_part_000_publickey (W : World) (op : SSHCreateSocketOp.t)
    (h : History) (r : ShellResult) :
  let path := SSHCreateSocketOp.getSocketPath op in
  settles_to (runCommand W "ssh" (SSHCreateSocketOp.ssh_args op path))
    (h ++ [Log ("Creating control socket at " ++ path ++ " for "
                ++ SSHCreateSocketOp.host op)]) r ->
  exitCode r <> 0%Z ->
  JsString.includes (stderr r) "Permission denied (publickey" = true ->
  settles_to (SSHCreateSocketOp_part_000.run W op) h
    (Failure SSHCreateSocketOp.AuthenticationFailed (stderr r)).
Proof.
  intros path Hr Hc Hpk. unfold settles_to in *.
  rewrite runCommand_run in Hr. cbn [snd] in Hr.
  apply Z.eqb_neq in Hc.
  apply (includes_prefix _ "Permission denied" " (publickey") in Hpk.
  unfold SSHCreateSocketOp_part_000.run. fold path. cbv zeta.
  rewrite catch_run, bind_run, log_run, bind_run, runCommand_run, Hr, Hc.
  rewrite bind_run, logError_run, Hpk. reflexivity.
Qed.

(** C1 fails on the copy of Create in [src/unnamed/part_000]. When
    [ssh] exits with 255 and the message ["user@host: Permission denied
    (publickey,password)."], which has the publickey pattern in it, this
    copy of Create fails with [AuthenticationFailed], where the copy in
    [src/SSHCreateSocketOp.ts] fails with [PermissionDenied]. *)
Theorem Create_part_000_misclassifies :
  let op := SSHCreateSocketOp.new "user@host" None None None in
  let text := "user@host: Permission denied (publickey,password)." in
  let refused := Scenario.world [] (Scenario.ssh_fails 255 text) None in
  JsString.includes text "Permission denied (publickey" = true
  /\ settles_to (SSHCreateSocketOp_part_000.run refused op) []
       (Failure SSHCreateSocketOp.AuthenticationFailed text)
  /\ settles_to (SSHCreateSocketOp.run refused op) []
       (Failure SSHCreateSocketOp.PermissionDenied text).
Proof. repeat split. Qed.

(* ===================================================================== *)
(** ** The command-execution service *)
(* ===================================================================== *)

Section Listeners.
Variable W : World.

(** While only ['data'] arrives, the chunks pile up and the promise
    stays as it is. *)
Lemma runCommand_on_data (pre : list ChildEvent) :
  forallb is_data pre = true ->
  forall out err (p : Promise ShellResult),
    fold_left (runCommand_on W) pre (mkExecutor out err p)
    = mkExecutor (out ++ stdout_of pre) (err ++ stderr_of pre) p.
Proof.
  induction pre as [|ev pre IH]; intros Hd out err p.
  - cbn. now rewrite !app_nil_r.
  - cbn [forallb] in Hd. apply andb_true_iff in Hd as [Hev Hpre].
    destruct ev; try discriminate Hev; cbn [fold_left runCommand_on
      stdoutChunks stderrChunks promise stdout_of stderr_of];
      rewrite (IH Hpre), <- ?app_assoc; reflexivity.
Qed.

Lemma runCommandBuffers_on_data (pre : list ChildEvent) :
  forallb is_data pre = true ->
  forall out err (p : Promise ShellResultBuffers),
    fold_left (runCommandBuffers_on W) pre (mkExecutor out err p)
    = mkExecutor (out ++ stdout_of pre) (err ++ stderr_of pre) p.
Proof.
  induction pre as [|ev pre IH]; intros Hd out err p.
  - cbn. now rewrite !app_nil_r.
  - cbn [forallb] in Hd. apply andb_true_iff in Hd as [Hev Hpre].
    destruct ev; try discriminate Hev; cbn [fold_left runCommandBuffers_on
      stdoutChunks stderrChunks promise stdout_of stderr_of];
      rewrite (IH Hpre), <- ?app_assoc; reflexivity.
Qed.

(** A fulfilled promise stays fulfilled, with the same value, whatever
    arrives afterwards. *)
Lemma runCommand_on_fulfilled (post : list ChildEvent) :
  forall st v, promise st = Fulfilled v ->
    promise (fold_left (runCommand_on W) post st) = Fulfilled v.
Proof.
  induction post as [|ev post IH]; intros st v Hst; [exact Hst |].
  cbn [fold_left]. apply IH.
  destruct ev; cbn [runCommand_on promise]; rewrite ?Hst; reflexivity.
Qed.

Lemma runCommandBuffers_on_fulfilled (post : list ChildEvent) :
  forall st v, promise st = Fulfilled v ->
    promise (fold_left (runCommandBuffers_on W) post st) = Fulfilled v.
Proof.
  induction post as [|ev post IH]; intros st v Hst; [exact Hst |].
  cbn [fold_left]. apply IH.
  destruct ev; cbn [runCommandBuffers_on promise]; rewrite ?Hst; reflexivity.
Qed.

(** The listeners never reject the promise. *)
Lemma runCommand_on_not_rejected (events : list ChildEvent) :
  forall st, (forall e, promise st <> Rejected e) ->
    forall e, promise (fold_left (runCommand_on W) events st) <> Rejected e.
Proof.
  induction events as [|ev events IH]; intros st Hst; [exact Hst |].
  cbn [fold_left]. apply IH. intros e.
  destruct ev; cbn [runCommand_on promise]; try apply Hst;
    destruct (promise st) eqn:E; cbn [resolve]; try discriminate;
    now destruct (Hst reason).
Qed.

Lemma runCommandBuffers_on_not_rejected (events : list ChildEvent) :
  forall st, (forall e, promise st <> Rejected e) ->
    forall e,
      promise (fold_left (runCommandBuffers_on W) events st) <> Rejected e.
Proof.
  induction events as [|ev events IH]; intros st Hst; [exact Hst |].
  cbn [fold_left]. apply IH. intros e.
  destruct ev; cbn [runCommandBuffers_on promise]; try apply Hst;
    destruct (promise st) eqn:E; cbn [resolve]; try discriminate;
    now destruct (Hst reason).
Qed.

(** Events split at the first one that is not ['data']. *)
Lemma first_settling_event (events : list ChildEvent) :
  existsb (fun ev => negb (is_data ev)) events = true ->
  exists pre ev post,
    events = pre ++ ev :: post
    /\ forallb is_data pre = true /\ is_data ev = false.
Proof.
  induction events as [|ev events IH]; [discriminate |].
  cbn [existsb]. destruct (is_data ev) eqn:E; cbn [negb orb].
  - intros H. destruct (IH H) as (pre & ev' & post & -> & Hpre & Hev).
    exists (ev :: pre), ev', post. cbn [forallb]. now rewrite E, Hpre.
  - intros _. now exists [], ev, events.
Qed.

(** The promise of [runCommand] after a child that settles it. *)
Lemma runCommand_promise_settled (pre post : list ChildEvent) (ev : ChildEvent) :
  forallb is_data pre = true ->
  runCommand_promise W (spawn_child (pre ++ ev :: post)) =
  match ev with
  | close code =>
      Fulfilled (mkShellResult (code_or_1 code)
                   (buffer_toString W (List.concat (stdout_of pre)))
                   (buffer_toString W (List.concat (stderr_of pre))))
  | error message => Fulfilled (mkShellResult 1 "" message)
  | _ => runCommand_promise W (spawn_child (pre ++ ev :: post))
  end.
Proof.
  intros Hpre. destruct ev; try reflexivity.
  all: unfold runCommand_promise.
  all: rewrite fold_left_app, (runCommand_on_data pre Hpre).
  all: cbn [fold_left app].
  all: apply runCommand_on_fulfilled; reflexivity.
Qed.

Lemma runCommandBuffers_promise_settled (pre post : list ChildEvent)
    (ev : ChildEvent) :
  forallb is_data pre = true ->
  runCommandBuffers_promise W (spawn_child (pre ++ ev :: post)) =
  match ev with
  | close code =>
      Fulfilled (mkShellResultBuffers (code_or_1 code)
                   (List.concat (stdout_of pre)) (List.concat (stderr_of pre)))
  | error message =>
      Fulfilled (mkShellResultBuffers 1 [] (buffer_from W message))
  | _ => runCommandBuffers_promise W (spawn_child (pre ++ ev :: post))
  end.
Proof.
  intros Hpre. destruct ev; try reflexivity.
  all: unfold runCommandBuffers_promise.
  all: rewrite fold_left_app, (runCommandBuffers_on_data pre Hpre).
  all: cbn [fold_left app].
  all: apply runCommandBuffers_on_fulfilled; reflexivity.
Qed.

End Listeners.

(** C8, as the code has it. When [spawn] returns a child process, the
    promises of [runCommand] and [runCommandBuffers] are never rejected;
    once the child has emitted ['close'] or ['error'] they are fulfilled
    with a result; and when the first of these events is ['error'], a
    spawn failure, the result has exit code 1, the message of the error
    as standard error and an empty standard output. When [spawn] itself
    throws, the promise is rejected with what was thrown. *)
Theorem runCommand_settlement (W : World) (command : string)
    (args : list string) (h : History) :
  (forall events,
     spawn W h command args = spawn_child events ->
     (forall e,
        snd (runCommand W command args h) <> Rejected e
        /\ snd (runCommandBuffers W command args h) <> Rejected e)
     /\ (existsb (fun ev => negb (is_data ev)) events = true ->
         (exists r, settles_to (runCommand W command args) h r)
         /\ (exists r, settles_to (runCommandBuffers W command args) h r))
     /\ (forall pre message post,
           events = pre ++ error message :: post ->
           forallb is_data pre = true ->
           settles_to (runCommand W command args) h
             (mkShellResult 1 "" message)
           /\ settles_to (runCommandBuffers W command args) h
                (mkShellResultBuffers 1 [] (buffer_from W message))))
  /\ (forall e,
        spawn W h command args = spawn_throws e ->
        snd (runCommand W command args h) = Rejected e
        /\ snd (runCommandBuffers W command args h) = Rejected e).
Proof.
  unfold settles_to. rewrite runCommand_run, runCommandBuffers_run.
  cbn [snd]. split.
  - intros events ->. split; [| split].
    + intros e. split.
      * apply runCommand_on_not_rejected. discriminate.
      * apply runCommandBuffers_on_not_rejected. discriminate.
    + intros Hsettles.
      apply first_settling_event in Hsettles
        as (pre & ev & post & -> & Hpre & Hev).
      rewrite (runCommand_promise_settled W pre post ev Hpre),
        (runCommandBuffers_promise_settled W pre post ev Hpre).
      destruct ev; try discriminate Hev; eauto.
    + intros pre message post -> Hpre.
      now rewrite (runCommand_promise_settled W pre post _ Hpre),
        (runCommandBuffers_promise_settled W pre post _ Hpre).
  - intros e ->. split; reflexivity.
Qed.

Lemma runCommand_settlement_witness :
  let missing :=
    Scenario.world []
      (spawn_child [ error "spawn ssh ENOENT"; close (Some (-2)%Z) ]) None in
  (forall e,
     snd (runCommand missing "ssh" ["-V"] []) <> Rejected e
     /\ snd (runCommandBuffers missing "ssh" ["-V"] []) <> Rejected e)
  /\ ((exists r, settles_to (runCommand missing "ssh" ["-V"]) [] r)
      /\ (exists r, settles_to (runCommandBuffers missing "ssh" ["-V"]) [] r))
  /\ (settles_to (runCommand missing "ssh" ["-V"]) []
        (mkShellResult 1 "" "spawn ssh ENOENT")
      /\ settles_to (runCommandBuffers missing "ssh" ["-V"]) []
           (mkShellResultBuffers 1 []
              (list_byte_of_string "spawn ssh ENOENT")))
  /\ (snd (runCommand missing "" [] []) = Rejected Scenario.ERR_INVALID_ARG_VALUE
      /\ snd (runCommandBuffers missing "" [] [])
         = Rejected Scenario.ERR_INVALID_ARG_VALUE).
Proof.
  intros missing. repeat apply conj.
  - apply (proj1 (proj1 (runCommand_settlement missing "ssh" ["-V"] [])
                    _ eq_refl)).
  - apply (proj1 (proj2 (proj1 (runCommand_settlement missing "ssh" ["-V"] [])
                           _ eq_refl))).
    reflexivity.
  - apply (proj1 (proj2 (proj1 (runCommand_settlement missing "ssh" ["-V"] [])
                           _ eq_refl))).
    reflexivity.
  - apply (proj2 (proj2 (proj1 (runCommand_settlement missing "ssh" ["-V"] [])
                           _ eq_refl))
             [] "spawn ssh ENOENT" [close (Some (-2)%Z)]); reflexivity.
  - apply (proj2 (proj2 (proj1 (runCommand_settlement missing "ssh" ["-V"] [])
                           _ eq_refl))
             [] "spawn ssh ENOENT" [close (Some (-2)%Z)]); reflexivity.
  - apply (proj2 (runCommand_settlement missing "" [] [])
             Scenario.ERR_INVALID_ARG_VALUE). reflexivity.
  - apply (proj2 (runCommand_settlement missing "" [] [])
             Scenario.ERR_INVALID_ARG_VALUE). reflexivity.
Defined.

(** C8, as stated, fails: it is not so that for every command name and
    argument list the promise is fulfilled with a result. With the
    empty command name [spawn] throws inside the executor and the
    promise is rejected; and a child that emits neither ['close'] nor
    ['error'] leaves it pending. *)
Lemma runCommand_not_always_fulfilled :
  let W := Scenario.world [] (spawn_child []) None in
  snd (runCommand W "" [] []) = Rejected Scenario.ERR_INVALID_ARG_VALUE
  /\ snd (runCommandBuffers W "" [] [])
     = Rejected Scenario.ERR_INVALID_ARG_VALUE
  /\ snd (runCommand W "ssh" [] []) = Pending
  /\ ~ (forall (W : World) (command : string) (args : list string)
          (h : History),
          (exists r, settles_to (runCommand W command args) h r)
          /\ (exists r, settles_to (runCommandBuffers W command args) h r)).
Proof.
  intros W. repeat split.
  intros H. destruct (H W "" [] []) as [[r Hr] _]. discriminate Hr.
Qed.

(** C10. When the child closes with a [null] exit code, both
    [runCommand] and [runCommandBuffers] report the exit code 1
    together with the output captured until then, and the result is the
    one a child that exits with code 1 gives. *)
Theorem null_exit_code_is_1 (W : World) (command : string)
    (args : list string) (h : History) (pre post : list ChildEvent) :
  spawn W h command args = spawn_child (pre ++ close None :: post) ->
  forallb is_data pre = true ->
  settles_to (runCommand W command args) h
    (mkShellResult 1
       (buffer_toString W (List.concat (stdout_of pre)))
       (buffer_toString W (List.concat (stderr_of pre))))
  /\ settles_to (runCommandBuffers W command args) h
       (mkShellResultBuffers 1
          (List.concat (stdout_of pre)) (List.concat (stderr_of pre)))
  /\ (forall post',
        runCommand_promise W (spawn_child (pre ++ close None :: post))
        = runCommand_promise W (spawn_child (pre ++ close (Some 1%Z) :: post'))
        /\ runCommandBuffers_promise W
             (spawn_child (pre ++ close None :: post))
           = runCommandBuffers_promise W
               (spawn_child (pre ++ close (Some 1%Z) :: post'))).
Proof.
  intros Hspawn Hpre. unfold settles_to.
  rewrite runCommand_run, runCommandBuffers_run, Hspawn. cbn [snd].
  rewrite (runCommand_promise_settled W pre post _ Hpre),
    (runCommandBuffers_promise_settled W pre post _ Hpre).
  repeat split.
  - now rewrite (runCommand_promise_settled W pre post' _ Hpre).
  - now rewrite (runCommandBuffers_promise_settled W pre post' _ Hpre).
Qed.

Lemma null_exit_code_is_1_witness :
  let killed :=
    Scenario.world []
      (spawn_child [ stdout_data (list_byte_of_string "partial ");
                     stderr_data (list_byte_of_string "warning");
                     stdout_data (list_byte_of_string "output");
                     close None ])
      None in
  settles_to (runCommand killed "ssh" ["host"; "sleep 60"]) []
    (mkShellResult 1 "partial output" "warning")
  /\ settles_to (runCommandBuffers killed "ssh" ["host"; "sleep 60"]) []
       (mkShellResultBuffers 1
          (list_byte_of_string "partial output")
          (list_byte_of_string "warning")).
Proof.
  intros killed.
  pose proof (null_exit_code_is_1 killed "ssh" ["host"; "sleep 60"] []
                [ stdout_data (list_byte_of_string "partial ");
                  stderr_data (list_byte_of_string "warning");
                  stdout_data (list_byte_of_string "output") ]
                [] eq_refl eq_refl) as H.
  split; [exact (proj1 H) | exact (proj1 (proj2 H))].
Defined.

(* ===================================================================== *)
(** ** Every operation, case by case *)
(* ===================================================================== *)

(** What each operation does is decided by a few answers of the world:
    whether [stat] and [unlink] are fulfilled, and how the promise of
    the command-execution service is settled. The lemmas of this part
    give the calls made and the promise left for each combination. *)

Lemma now_run (W : World) (h : History) :
  now W h = (h ++ [DateNow], Fulfilled (date_toISOString W h)).
Proof. reflexivity. Qed.

Lemma unlink_run (W : World) (path : string) (h : History) :
  unlink W path h
  = (h ++ [Unlink path],
     match fs_unlink W h path with
     | None => Fulfilled tt
     | Some e => Rejected e
     end).
Proof. reflexivity. Qed.

Lemma Check_run_cases (W : World) (op : SSHCheckSocketOp.t) (h : History) :
  let path := SSHCheckSocketOp.socketPath op in
  let args := [ "-S"; path; "-O"; "check"; SSHCheckSocketOp.host op ] in
  let h1 := (h ++ [Stat path]) ++ [Log ("Checking socket health: " ++ path)] in
  let h2 := h1 ++ [Spawn "ssh" args] in
  SSHCheckSocketOp.run W op h =
  match fs_stat W h path with
  | Some _ =>
      (h ++ [Stat path],
       Fulfilled (Failure SSHCheckSocketOp.SocketNotFound
                    ("Control socket does not exist: " ++ path)))
  | None =>
      match runCommand_promise W (spawn W h1 "ssh" args) with
      | Pending => (h2, Pending)
      | Fulfilled r =>
          if (exitCode r =? 0)%Z
          then (h2 ++ [Log "Socket is alive"],
                Fulfilled (Success SSHCheckSocketOp.alive))
          else (h2 ++ [Log "Socket is dead"],
                Fulfilled (Success SSHCheckSocketOp.dead))
      | Rejected e =>
          (h2 ++ [LogError ("Exception: " ++ message_of e)],
           Fulfilled (Failure SSHCheckSocketOp.UnknownError (message_of e)))
      end
  end.
Proof.
  intros path args h1 h2. unfold SSHCheckSocketOp.run. fold path.
  rewrite catch_run, bind_run, stat_found.
  destruct (fs_stat W h path); cbn [negb]; [reflexivity |].
  rewrite bind_run, log_run, bind_run, runCommand_run.
  fold args. fold h1.
  destruct (runCommand_promise W _) as [ | r | e]; try reflexivity.
  destruct (exitCode r =? 0)%Z; reflexivity.
Qed.

Lemma Exit_run_cases (W : World) (op : SSHExitSocketOp.t) (h : History) :
  let path := SSHExitSocketOp.socketPath op in
  let args := [ "-S"; path; "-O"; "exit"; SSHExitSocketOp.host op ] in
  let h1 := (h ++ [Stat path]) ++ [Log ("Requesting socket exit: " ++ path)] in
  let h2 := h1 ++ [Spawn "ssh" args] in
  SSHExitSocketOp.run W op h =
  match fs_stat W h path with
  | Some _ =>
      (h ++ [Stat path],
       Fulfilled (Failure SSHExitSocketOp.SocketNotFound
                    ("Control socket does not exist: " ++ path)))
  | None =>
      match runCommand_promise W (spawn W h1 "ssh" args) with
      | Pending => (h2, Pending)
      | Fulfilled r =>
          (h2 ++ [Log (if (exitCode r =? 0)%Z
                       then "Socket exited cleanly"
                       else "Socket exit command failed (may already be dead)")],
           Fulfilled (Success (exitCode r =? 0)%Z))
      | Rejected e =>
          (h2 ++ [LogError ("Exception: " ++ message_of e)],
           Fulfilled (Failure SSHExitSocketOp.UnknownError (message_of e)))
      end
  end.
Proof.
  intros path args h1 h2. unfold SSHExitSocketOp.run. fold path.
  rewrite catch_run, bind_run, stat_found.
  destruct (fs_stat W h path); cbn [negb]; [reflexivity |].
  rewrite bind_run, log_run, bind_run, runCommand_run.
  fold args. fold h1.
  destruct (runCommand_promise W _) as [ | r | e]; reflexivity.
Qed.

Lemma Remove_run_cases (W : World) (op : RemoveSocketFileOp.t) (h : History) :
  let path := RemoveSocketFileOp.socketPath op in
  let h1 := h ++ [Log ("Removing socket file: " ++ path)] in
  let h2 := h1 ++ [Unlink path] in
  RemoveSocketFileOp.run W op h =
  match fs_unlink W h1 path with
  | None => (h2 ++ [Log "Socket file removed"], Fulfilled (Success true))
  | Some (ErrorObject code message) =>
      if RemoveSocketFileOp.code_is code "ENOENT"
      then (h2, Fulfilled (Failure RemoveSocketFileOp.FileNotFound
                             ("File does not exist: " ++ path)))
      else if RemoveSocketFileOp.code_is code "EACCES"
              || RemoveSocketFileOp.code_is code "EPERM"
      then (h2, Fulfilled (Failure RemoveSocketFileOp.PermissionDenied
                             ("Permission denied: " ++ path)))
      else (h2 ++ [LogError ("Exception: " ++ message)],
            Fulfilled (Failure RemoveSocketFileOp.UnknownError message))
  | Some (NonError message) =>
      (h2 ++ [LogError ("Exception: " ++ message)],
       Fulfilled (Failure RemoveSocketFileOp.UnknownError message))
  end.
Proof.
  intros path h1 h2. unfold RemoveSocketFileOp.run. fold path.
  rewrite catch_run, bind_run, log_run, bind_run, unlink_run.
  fold h1.
  destruct (fs_unlink W h1 path) as [[code message | message] | ];
    try reflexivity.
  destruct (RemoveSocketFileOp.code_is code "ENOENT"); [reflexivity |].
  destruct (RemoveSocketFileOp.code_is code "EACCES"
            || RemoveSocketFileOp.code_is code "EPERM"); reflexivity.
Qed.

Lemma Exec_run_cases (W : World) (op : SSHExecOp.t) (h : History) :
  let path := SSHExecOp.socketPath op in
  let h1 := (h ++ [Stat path])
            ++ [Log ("Executing on " ++ SSHExecOp.host op ++ " via " ++ path
                     ++ ": " ++ SSHExecOp.command op)] in
  let h2 := h1 ++ [Spawn "ssh" (SSHExecOp.ssh_args op)] in
  SSHExecOp.run W op h =
  match fs_stat W h path with
  | Some _ =>
      (h ++ [Stat path],
       Fulfilled (Failure SSHExecOp.SocketNotFound
                    ("Control socket does not exist: " ++ path)))
  | None =>
      match runCommandBuffers_promise W
              (spawn W h1 "ssh" (SSHExecOp.ssh_args op)) with
      | Pending => (h2, Pending)
      | Fulfilled r =>
          let stderr := buffer_toString W (stderrBuffer r) in
          if (bExitCode r =? 255)%Z
          then (h2,
                Fulfilled
                  match Classification.first_match
                          Classification.exec_rules stderr with
                  | Some kind => Failure kind stderr
                  | None => Failure SSHExecOp.ConnectionFailed
                              ("Exit 255: " ++ stderr)
                  end)
          else (h2 ++ [Log ("Command completed with exit code "
                            ++ JsString.of_number (bExitCode r))],
                Fulfilled
                  (Success
                     (SSHExecOp.mkExecResult (bExitCode r)
                        (buffer_toString W (stdoutBuffer r)) stderr
                        (stdoutBuffer r) (stderrBuffer r))))
      | Rejected e =>
          (h2 ++ [LogError ("Exception: " ++ message_of e)],
           Fulfilled (Failure SSHExecOp.UnknownError (message_of e)))
      end
  end.
Proof.
  intros path h1 h2. unfold SSHExecOp.run. fold path.
  rewrite catch_run, bind_run, stat_found.
  destruct (fs_stat W h path); cbn [negb]; [reflexivity |].
  rewrite bind_run, log_run, bind_run, runCommandBuffers_run.
  fold h1.
  destruct (runCommandBuffers_promise W _) as [ | r | e]; try reflexivity.
  cbv zeta. set (stderr := buffer_toString W (stderrBuffer r)).
  destruct (bExitCode r =? 255)%Z; [| reflexivity].
  cbn [Classification.first_match Classification.exec_rules
       Classification.any_of Classification.all_of existsb forallb].
  rewrite ?orb_false_r, ?andb_true_r.
  create_case stderr "No such file".
  create_case stderr "no such file".
  create_case stderr "Connection refused".
  create_case stderr "Connection reset".
  create_case stderr "Operation timed out".
  create_case stderr "Connection timed out".
  create_case stderr "Control socket"; [| reflexivity].
  create_case stderr "dead". reflexivity.
Qed.

Lemma Create_run_cases (W : World) (op : SSHCreateSocketOp.t) (h : History) :
  let path := SSHCreateSocketOp.getSocketPath op in
  let args := SSHCreateSocketOp.ssh_args op path in
  let h1 := h ++ [Log ("Creating control socket at " ++ path ++ " for "
                       ++ SSHCreateSocketOp.host op)] in
  let h2 := h1 ++ [Spawn "ssh" args] in
  SSHCreateSocketOp.run W op h =
  match runCommand_promise W (spawn W h1 "ssh" args) with
  | Pending => (h2, Pending)
  | Fulfilled r =>
      if (exitCode r =? 0)%Z
      then ((h2 ++ [DateNow]) ++ [Log "Socket created successfully"],
            Fulfilled
              (Success (SocketInfo.mk path (SSHCreateSocketOp.host op)
                          (date_toISOString W h2))))
      else (h2 ++ [LogError ("SSH failed with exit code "
                             ++ JsString.of_number (exitCode r) ++ ": "
                             ++ stderr r)],
            Fulfilled
              match Classification.first_match
                      Classification.create_rules (stderr r) with
              | Some kind => Failure kind (stderr r)
              | None =>
                  Failure SSHCreateSocketOp.UnknownError
                    ("Exit code " ++ JsString.of_number (exitCode r)
                     ++ ": " ++ stderr r)
              end)
  | Rejected e =>
      (h2 ++ [LogError ("Exception: " ++ message_of e)],
       Fulfilled (Failure SSHCreateSocketOp.UnknownError (message_of e)))
  end.
Proof.
  intros path args h1 h2. unfold SSHCreateSocketOp.run. fold path.
  cbv zeta. rewrite catch_run, bind_run, log_run, bind_run, runCommand_run.
  fold args. fold h1.
  destruct (runCommand_promise W _) as [ | r | e]; try reflexivity.
  destruct (exitCode r =? 0)%Z; [reflexivity |].
  rewrite bind_run, logError_run.
  cbn [Classification.first_match Classification.create_rules
       Classification.any_of existsb].
  rewrite ?orb_false_r.
  set (text := stderr r).
  create_case text "Permission denied (publickey".
  create_case text "Permission denied".
  create_case text "Authentication failed".
  create_case text "REMOTE HOST IDENTIFICATION HAS CHANGED".
  create_case text "Host key verification failed".
  create_case text "Could not resolve hostname".
  create_case text "Name or service not known".
  create_case text "Connection refused".
  create_case text "Network is unreachable".
  create_case text "No route to host".
  create_case text "Broken pipe".
  create_case text "Operation timed out".
  create_case text "Connection timed out".
  reflexivity.
Qed.

(* ===================================================================== *)
(** ** Create, Exec and RemoveSocketFile beyond their failure tables *)
(* ===================================================================== *)

(** When [ssh] exits with 0, Create succeeds whatever was written on the
    standard error, also a text that one of the rules would match: the
    [SocketInfo] carries the path that was given to [ssh] after [-S],
    the host, and the time read after [ssh] has ended. *)
Theorem Create_exit_0 (W : World) (op : SSHCreateSocketOp.t) (h : History)
    (r : ShellResult) :
  let path := SSHCreateSocketOp.getSocketPath op in
  let args := SSHCreateSocketOp.ssh_args op path in
  let h1 := h ++ [Log ("Creating control socket at " ++ path ++ " for "
                       ++ SSHCreateSocketOp.host op)] in
  let h2 := h1 ++ [Spawn "ssh" args] in
  settles_to (runCommand W "ssh" args) h1 r ->
  exitCode r = 0%Z ->
  SSHCreateSocketOp.run W op h
  = ((h2 ++ [DateNow]) ++ [Log "Socket created successfully"],
     Fulfilled
       (Success (SocketInfo.mk path (SSHCreateSocketOp.host op)
                   (date_toISOString W h2))))
  /\ exists rest, args = "-M" :: "-S" :: path :: rest.
Proof.
  intros path args h1 h2 Hr Hc. unfold settles_to in Hr.
  rewrite runCommand_run in Hr. cbn [snd] in Hr.
  split; [| now eexists].
  rewrite Create_run_cases. fold path. fold args. fold h1. fold h2.
  now rewrite Hr, Hc.
Qed.

Lemma Create_exit_0_witness :
  let op := SSHCreateSocketOp.new "user@host" None None None in
  let warned :=
    Scenario.world []
      (Scenario.ssh_fails 0 "Warning: Permission denied for agent") None in
  settles_to (SSHCreateSocketOp.run warned op) []
    (Success (SocketInfo.mk "/tmp/sshit-ctrl-user-host" "user@host"
                "2025-01-01T00:00:00.000Z")).
Proof.
  intros op warned. unfold settles_to.
  rewrite (proj1 (Create_exit_0 warned op []
                    (mkShellResult 0 ""
                       "Warning: Permission denied for agent")
                    eq_refl eq_refl)).
  reflexivity.
Defined.

(** An exception of [spawn] does not escape Create, Check, Exec or
    Exit: each of them fails with [UnknownError] and the message of
    what was thrown. For Check, Exec and Exit this needs the socket
    file to be there, for they do not reach [spawn] otherwise. *)
Theorem spawn_exception_is_UnknownError (W : World) (h : History) (e : Thrown) :
  (forall op,
     let path := SSHCreateSocketOp.getSocketPath op in
     spawn W (h ++ [Log ("Creating control socket at " ++ path ++ " for "
                         ++ SSHCreateSocketOp.host op)])
       "ssh" (SSHCreateSocketOp.ssh_args op path) = spawn_throws e ->
     settles_to (SSHCreateSocketOp.run W op) h
       (Failure SSHCreateSocketOp.UnknownError (message_of e)))
  /\ (forall op,
        let path := SSHCheckSocketOp.socketPath op in
        fs_stat W h path = None ->
        spawn W ((h ++ [Stat path])
                 ++ [Log ("Checking socket health: " ++ path)])
          "ssh" [ "-S"; path; "-O"; "check"; SSHCheckSocketOp.host op ]
        = spawn_throws e ->
        settles_to (SSHCheckSocketOp.run W op) h
          (Failure SSHCheckSocketOp.UnknownError (message_of e)))
  /\ (forall op,
        let path := SSHExecOp.socketPath op in
        fs_stat W h path = None ->
        spawn W ((h ++ [Stat path])
                 ++ [Log ("Executing on " ++ SSHExecOp.host op ++ " via "
                          ++ path ++ ": " ++ SSHExecOp.command op)])
          "ssh" (SSHExecOp.ssh_args op) = spawn_throws e ->
        settles_to (SSHExecOp.run W op) h
          (Failure SSHExecOp.UnknownError (message_of e)))
  /\ (forall op,
        let path := SSHExitSocketOp.socketPath op in
        fs_stat W h path = None ->
        spawn W ((h ++ [Stat path])
                 ++ [Log ("Requesting socket exit: " ++ path)])
          "ssh" [ "-S"; path; "-O"; "exit"; SSHExitSocketOp.host op ]
        = spawn_throws e ->
        settles_to (SSHExitSocketOp.run W op) h
          (Failure SSHExitSocketOp.UnknownError (message_of e))).
Proof.
  split; [| split; [| split]].
  - intros op path He. unfold settles_to.
    rewrite Create_run_cases. fold path. now rewrite He.
  - intros op path Hs He. unfold settles_to.
    rewrite Check_run_cases. fold path. now rewrite Hs, He.
  - intros op path Hs He. unfold settles_to.
    rewrite Exec_run_cases. fold path. now rewrite Hs, He.
  - intros op path Hs He. unfold settles_to.
    rewrite Exit_run_cases. fold path. now rewrite Hs, He.
Qed.

Lemma spawn_exception_is_UnknownError_witness :
  let stuck := Scenario.world ["/tmp/s"] (spawn_throws Scenario.E2BIG) None in
  settles_to
    (SSHCreateSocketOp.run stuck
       (SSHCreateSocketOp.new "user@host" None None None)) []
    (Failure SSHCreateSocketOp.UnknownError "spawn E2BIG")
  /\ settles_to
       (SSHCheckSocketOp.run stuck (SSHCheckSocketOp.mk "/tmp/s" "user@host"))
       [] (Failure SSHCheckSocketOp.UnknownError "spawn E2BIG")
  /\ settles_to
       (SSHExecOp.run stuck (SSHExecOp.new "/tmp/s" "user@host" "ls" None))
       [] (Failure SSHExecOp.UnknownError "spawn E2BIG")
  /\ settles_to
       (SSHExitSocketOp.run stuck (SSHExitSocketOp.mk "/tmp/s" "user@host"))
       [] (Failure SSHExitSocketOp.UnknownError "spawn E2BIG").
Proof.
  intros stuck.
  pose proof (spawn_exception_is_UnknownError stuck [] Scenario.E2BIG)
    as (HCreate & HCheck & HExec & HExit).
  repeat apply conj.
  - apply (HCreate (SSHCreateSocketOp.new "user@host" None None None)).
    reflexivity.
  - apply (HCheck (SSHCheckSocketOp.mk "/tmp/s" "user@host")); reflexivity.
  - apply (HExec (SSHExecOp.new "/tmp/s" "user@host" "ls" None)); reflexivity.
  - apply (HExit (SSHExitSocketOp.mk "/tmp/s" "user@host")); reflexivity.
Defined.

(** When the socket file cannot be [stat]ed, Exec fails with
    [SocketNotFound] and the path in the diagnostic, and the [stat] is
    the only call it makes: [ssh] is not spawned. *)
Theorem Exec_socket_missing (W : World) (op : SSHExecOp.t) (h : History)
    (e : Thrown) :
  let path := SSHExecOp.socketPath op in
  fs_stat W h path = Some e ->
  SSHExecOp.run W op h
  = (h ++ [Stat path],
     Fulfilled (Failure SSHExecOp.SocketNotFound
                  ("Control socket does not exist: " ++ path)))
  /\ spawns (calls_after (SSHExecOp.run W op) h) = spawns h.
Proof.
  intros path He.
  assert (Hrun : SSHExecOp.run W op h
    = (h ++ [Stat path],
       Fulfilled (Failure SSHExecOp.SocketNotFound
                    ("Control socket does not exist: " ++ path)))).
  { rewrite Exec_run_cases. fold path. now rewrite He. }
  split; [exact Hrun |].
  unfold calls_after. rewrite Hrun. cbn [fst].
  rewrite spawns_app. apply app_nil_r.
Qed.

Lemma Exec_socket_missing_witness :
  let gone := Scenario.world [] (Scenario.ssh_prints 0 "never run") None in
  let op := SSHExecOp.new "/tmp/s" "user@host" "ls" None in
  SSHExecOp.run gone op []
  = ([Stat "/tmp/s"],
     Fulfilled (Failure SSHExecOp.SocketNotFound
                  "Control socket does not exist: /tmp/s"))
  /\ spawns (calls_after (SSHExecOp.run gone op) []) = [].
Proof.
  intros gone op.
  apply (Exec_socket_missing gone op [] Scenario.ENOENT). reflexivity.
Defined.

(** Whatever the world does, a result that Exec succeeds with never has
    the exit code 255, and its two texts are the decodings of its two
    buffers. *)
Theorem Exec_result_invariant (W : World) (op : SSHExecOp.t) (h : History)
    (v : SSHExecOp.ExecResult) :
  settles_to (SSHExecOp.run W op) h (Success v) ->
  SSHExecOp.exitCode v <> 255%Z
  /\ SSHExecOp.stdout v = buffer_toString W (SSHExecOp.stdoutBuffer v)
  /\ SSHExecOp.stderr v = buffer_toString W (SSHExecOp.stderrBuffer v).
Proof.
  unfold settles_to. rewrite Exec_run_cases.
  destruct (fs_stat W h _); [discriminate |].
  destruct (runCommandBuffers_promise W _) as [ | r | e];
    try discriminate.
  cbv zeta. destruct (bExitCode r =? 255)%Z eqn:Hc; cbn [snd].
  - destruct (Classification.first_match _ _); discriminate.
  - intros H. injection H as <-. cbn.
    apply Z.eqb_neq in Hc. auto.
Qed.

Lemma Exec_result_invariant_witness :
  let ran := Scenario.world ["/tmp/s"] (Scenario.ssh_prints 3 "out") None in
  (3 <> 255)%Z
  /\ "out" = string_of_list_byte (list_byte_of_string "out")
  /\ "" = string_of_list_byte [].
Proof.
  intros ran.
  apply (Exec_result_invariant ran
           (SSHExecOp.new "/tmp/s" "user@host" "ls" None) []
           (SSHExecOp.mkExecResult 3 "out" ""
              (list_byte_of_string "out") [])).
  reflexivity.
Defined.

(** RemoveSocketFile calls [unlink] once, on its path, and spawns
    nothing. It succeeds when [unlink] is fulfilled; a rejection with
    the code [ENOENT] is [FileNotFound], one with [EACCES] or [EPERM]
    is [PermissionDenied], and every other one, an error without a code
    and a thrown value that is no error among them, is [UnknownError]
    with the message of what was thrown. *)
Theorem Remove_contract (W : World) (op : RemoveSocketFileOp.t) (h : History) :
  let path := RemoveSocketFileOp.socketPath op in
  let answer := fs_unlink W (h ++ [Log ("Removing socket file: " ++ path)]) path in
  (exists logged,
     calls_after (RemoveSocketFileOp.run W op) h
     = (h ++ [Log ("Removing socket file: " ++ path); Unlink path]) ++ logged
     /\ unlinks logged = [] /\ spawns logged = [])
  /\ (answer = None ->
      settles_to (RemoveSocketFileOp.run W op) h (Success true))
  /\ (forall message,
        answer = Some (ErrorObject (Some "ENOENT") message) ->
        settles_to (RemoveSocketFileOp.run W op) h
          (Failure RemoveSocketFileOp.FileNotFound
             ("File does not exist: " ++ path)))
  /\ (forall code message,
        answer = Some (ErrorObject (Some code) message) ->
        code = "EACCES" \/ code = "EPERM" ->
        settles_to (RemoveSocketFileOp.run W op) h
          (Failure RemoveSocketFileOp.PermissionDenied
             ("Permission denied: " ++ path)))
  /\ (forall code message,
        answer = Some (ErrorObject code message) ->
        code <> Some "ENOENT" -> code <> Some "EACCES" ->
        code <> Some "EPERM" ->
        settles_to (RemoveSocketFileOp.run W op) h
          (Failure RemoveSocketFileOp.UnknownError message))
  /\ (forall message,
        answer = Some (NonError message) ->
        settles_to (RemoveSocketFileOp.run W op) h
          (Failure RemoveSocketFileOp.UnknownError message)).
Proof.
  intros path answer. unfold settles_to, calls_after.
  rewrite Remove_run_cases. fold path. fold answer.
  assert (Hcode : forall code name,
            RemoveSocketFileOp.code_is code name = true <-> code = Some name).
  { intros [c |] name; cbn.
    - rewrite String.eqb_eq. split; congruence.
    - split; discriminate. }
  split; [| split; [| split; [| split; [| split]]]].
  - destruct answer as [[code message | message] | ].
    + destruct (RemoveSocketFileOp.code_is code "ENOENT");
        [| destruct (RemoveSocketFileOp.code_is code "EACCES"
                     || RemoveSocketFileOp.code_is code "EPERM")].
      * exists []. cbn [fst]. now rewrite app_nil_r, <- app_assoc.
      * exists []. cbn [fst]. now rewrite app_nil_r, <- app_assoc.
      * eexists [_]. cbn [fst]. now rewrite <- (app_assoc h).
    + eexists [_]. cbn [fst]. now rewrite <- (app_assoc h).
    + eexists [_]. cbn [fst]. now rewrite <- (app_assoc h).
  - intros Ha. rewrite Ha. reflexivity.
  - intros message Ha. rewrite Ha. reflexivity.
  - intros code message Ha [-> | ->]; rewrite Ha; reflexivity.
  - intros code message Ha N1 N2 N3. rewrite Ha.
    destruct (RemoveSocketFileOp.code_is code "ENOENT") eqn:E1;
      [now apply Hcode in E1 |].
    destruct (RemoveSocketFileOp.code_is code "EACCES") eqn:E2;
      [now apply Hcode in E2 |].
    destruct (RemoveSocketFileOp.code_is code "EPERM") eqn:E3;
      [now apply Hcode in E3 |].
    reflexivity.
  - intros message Ha. rewrite Ha. reflexivity.
Qed.

Lemma Remove_contract_witness :
  let op := RemoveSocketFileOp.mk "/tmp/s" in
  let world answer := Scenario.world [] (spawn_child []) answer in
  settles_to (RemoveSocketFileOp.run (world None) op) [] (Success true)
  /\ settles_to (RemoveSocketFileOp.run (world (Some Scenario.ENOENT)) op) []
       (Failure RemoveSocketFileOp.FileNotFound "File does not exist: /tmp/s")
  /\ settles_to (RemoveSocketFileOp.run (world (Some Scenario.EACCES)) op) []
       (Failure RemoveSocketFileOp.PermissionDenied "Permission denied: /tmp/s")
  /\ settles_to
       (RemoveSocketFileOp.run
          (world (Some (ErrorObject (Some "EBUSY") "EBUSY: resource busy")))
          op) []
       (Failure RemoveSocketFileOp.UnknownError "EBUSY: resource busy")
  /\ settles_to
       (RemoveSocketFileOp.run (world (Some (NonError "boom"))) op) []
       (Failure RemoveSocketFileOp.UnknownError "boom").
Proof.
  intros op world. repeat apply conj.
  - apply (proj1 (proj2 (Remove_contract (world None) op []))). reflexivity.
  - apply (proj1 (proj2 (proj2
             (Remove_contract (world (Some Scenario.ENOENT)) op [])))
             "ENOENT: no such file or directory").
    reflexivity.
  - apply (proj1 (proj2 (proj2 (proj2
             (Remove_contract (world (Some Scenario.EACCES)) op []))))
             "EACCES" "EACCES: permission denied");
      [reflexivity | now left].
  - apply (proj1 (proj2 (proj2 (proj2 (proj2
             (Remove_contract
                (world (Some (ErrorObject (Some "EBUSY")
                                "EBUSY: resource busy"))) op [])))))
             (Some "EBUSY") "EBUSY: resource busy");
      [reflexivity | discriminate | discriminate | discriminate].
  - apply (proj2 (proj2 (proj2 (proj2 (proj2
             (Remove_contract (world (Some (NonError "boom"))) op [])))))
             "boom").
    reflexivity.
Defined.

(* ===================================================================== *)
(** ** Validate and TearDown down to the world *)
(* ===================================================================== *)

Lemma Validate_run_world (W : World) (op : ValidateSocketOp.t) (h : History) :
  let path := ValidateSocketOp.socketPath op in
  let args := [ "-S"; path; "-O"; "check"; ValidateSocketOp.host op ] in
  let h0 := h ++ [Log ("Validating socket: " ++ path)] in
  let h1 := (h0 ++ [Stat path]) ++ [Log ("Checking socket health: " ++ path)] in
  let h2 := h1 ++ [Spawn "ssh" args] in
  ValidateSocketOp.run W op h =
  match fs_stat W h0 path with
  | Some _ =>
      ((h0 ++ [Stat path]) ++ [Log "Socket not found"],
       Fulfilled (Success (ValidateSocketOp.mkValidationResult false
                             ValidateSocketOp.not_found)))
  | None =>
      match runCommand_promise W (spawn W h1 "ssh" args) with
      | Pending => (h2, Pending)
      | Fulfilled r =>
          if (exitCode r =? 0)%Z
          then ((h2 ++ [Log "Socket is alive"])
                ++ [Log "Socket is alive, valid=true"],
                Fulfilled (Success (ValidateSocketOp.mkValidationResult true
                                      ValidateSocketOp.alive)))
          else ((h2 ++ [Log "Socket is dead"])
                ++ [Log "Socket is dead, valid=false"],
                Fulfilled (Success (ValidateSocketOp.mkValidationResult false
                                      ValidateSocketOp.dead)))
      | Rejected e =>
          (h2 ++ [LogError ("Exception: " ++ message_of e)],
           Fulfilled (Failure ValidateSocketOp.UnknownError (message_of e)))
      end
  end.
Proof.
  intros path args h0 h1 h2. unfold ValidateSocketOp.run. fold path.
  rewrite catch_run, bind_run, log_run, bind_run, Check_run_cases.
  cbn [SSHCheckSocketOp.socketPath SSHCheckSocketOp.host].
  fold h0. fold args. fold h1. fold h2.
  destruct (fs_stat W h0 path); [reflexivity |].
  destruct (runCommand_promise W _) as [ | r | e]; try reflexivity.
  destruct (exitCode r =? 0)%Z; reflexivity.
Qed.

(** Validate, read on the world. It never fails because the socket is
    missing or dead; it reports [valid] exactly when the socket file can
    be [stat]ed and [ssh -O check] ends with code 0; and when the file
    cannot be [stat]ed it answers ['not-found'] without spawning. *)
Theorem Validate_on_the_world (W : World) (op : ValidateSocketOp.t)
    (h : History) :
  let path := ValidateSocketOp.socketPath op in
  let h0 := h ++ [Log ("Validating socket: " ++ path)] in
  let check :=
    runCommand W "ssh" [ "-S"; path; "-O"; "check"; ValidateSocketOp.host op ] in
  let h1 := (h0 ++ [Stat path]) ++ [Log ("Checking socket health: " ++ path)] in
  (forall e,
     fs_stat W h0 path = Some e ->
     settles_to (ValidateSocketOp.run W op) h
       (Success (ValidateSocketOp.mkValidationResult false
                   ValidateSocketOp.not_found))
     /\ spawns (calls_after (ValidateSocketOp.run W op) h) = spawns h)
  /\ (forall v,
        settles_to (ValidateSocketOp.run W op) h (Success v) ->
        (ValidateSocketOp.valid v = true
         <-> fs_stat W h0 path = None
             /\ exists r, settles_to check h1 r /\ exitCode r = 0%Z))
  /\ (forall f d,
        settles_to (ValidateSocketOp.run W op) h (Failure f d) ->
        fs_stat W h0 path = None
        /\ exists e, snd (check h1) = Rejected e /\ d = message_of e).
Proof.
  intros path h0 check h1. unfold settles_to, calls_after, check.
  rewrite Validate_run_world, runCommand_run. fold path. fold h0. fold h1.
  cbn [snd]. split; [| split].
  - intros e He. rewrite He. cbn [fst snd]. split; [reflexivity |].
    unfold h0. rewrite !spawns_app. cbn. now rewrite !app_nil_r.
  - intros v. destruct (fs_stat W h0 path) as [e |].
    + cbn [snd]. intros H. injection H as <-. cbn. split.
      * discriminate.
      * intros [H _]. discriminate H.
    + destruct (runCommand_promise W _) as [ | r | e]; try discriminate.
      destruct (exitCode r =? 0)%Z eqn:Hc; cbn [snd];
        intros H; injection H as <-; cbn.
      * apply Z.eqb_eq in Hc. split; [| reflexivity].
        intros _. split; [reflexivity |]. now exists r.
      * apply Z.eqb_neq in Hc. split; [discriminate |].
        intros [_ [r' [Hr' Hc']]]. injection Hr' as ->. contradiction.
  - intros f d. destruct (fs_stat W h0 path) as [e |]; [discriminate |].
    destruct (runCommand_promise W _) as [ | r | e]; try discriminate.
    + destruct (exitCode r =? 0)%Z; discriminate.
    + cbn [snd]. intros H. inversion H; subst.
      split; [reflexivity |]. now exists e.
Qed.

Lemma Validate_on_the_world_witness :
  let op := ValidateSocketOp.mk "/tmp/s" "user@host" in
  let gone := Scenario.world [] (spawn_child []) None in
  let live :=
    Scenario.world ["/tmp/s"] (Scenario.ssh_prints 0 "Master running") None in
  let stuck := Scenario.world ["/tmp/s"] (spawn_throws Scenario.E2BIG) None in
  (settles_to (ValidateSocketOp.run gone op) []
     (Success (ValidateSocketOp.mkValidationResult false
                 ValidateSocketOp.not_found))
   /\ spawns (calls_after (ValidateSocketOp.run gone op) []) = [])
  /\ (true = true
      <-> fs_stat live [Log "Validating socket: /tmp/s"] "/tmp/s" = None
          /\ exists r,
               settles_to
                 (runCommand live "ssh" ["-S"; "/tmp/s"; "-O"; "check"; "user@host"])
                 [Log "Validating socket: /tmp/s"; Stat "/tmp/s";
                  Log "Checking socket health: /tmp/s"] r
               /\ exitCode r = 0%Z)
  /\ (fs_stat stuck [Log "Validating socket: /tmp/s"] "/tmp/s" = None
      /\ exists e,
           snd (runCommand stuck "ssh"
                  ["-S"; "/tmp/s"; "-O"; "check"; "user@host"]
                  [Log "Validating socket: /tmp/s"; Stat "/tmp/s";
                   Log "Checking socket health: /tmp/s"])
           = Rejected e
           /\ "spawn E2BIG" = message_of e).
Proof.
  intros op gone live stuck. split; [| split].
  - apply (proj1 (Validate_on_the_world gone op []) Scenario.ENOENT).
    reflexivity.
  - apply (proj1 (proj2 (Validate_on_the_world live op []))
             (ValidateSocketOp.mkValidationResult true ValidateSocketOp.alive)).
    reflexivity.
  - apply (proj2 (proj2 (Validate_on_the_world stuck op []))
             ValidateSocketOp.UnknownError "spawn E2BIG").
    reflexivity.
Defined.

Lemma TearDown_run_world (W : World) (op : TearDownSocketOp.t) (h : History) :
  let path := TearDownSocketOp.socketPath op in
  let args := [ "-S"; path; "-O"; "exit"; TearDownSocketOp.host op ] in
  let h0 := h ++ [Log ("Tearing down socket: " ++ path)] in
  let h1 := (h0 ++ [Stat path]) ++ [Log ("Requesting socket exit: " ++ path)] in
  let h2 := h1 ++ [Spawn "ssh" args] in
  let remove (hx : History) (exitedCleanly : bool) :=
    match RemoveSocketFileOp.run W (RemoveSocketFileOp.mk path) hx with
    | (hr, Fulfilled (Success _)) =>
        (hr ++ [Log "Socket torn down successfully"],
         Fulfilled (Success (TearDownSocketOp.mkTearDownResult
                               exitedCleanly true)))
    | (hr, Fulfilled (Failure RemoveSocketFileOp.FileNotFound _)) =>
        (hr ++ [Log "Socket file already removed"],
         Fulfilled (Success (TearDownSocketOp.mkTearDownResult
                               exitedCleanly false)))
    | (hr, Fulfilled (Failure _ debugData)) =>
        (hr, Fulfilled (Failure TearDownSocketOp.RemoveFailed debugData))
    | (hr, Pending) => (hr, Pending)
    | (hr, Rejected e) =>
        (hr ++ [LogError ("Exception: " ++ message_of e)],
         Fulfilled (Failure TearDownSocketOp.UnknownError (message_of e)))
    end in
  TearDownSocketOp.run W op h =
  match fs_stat W h0 path with
  | Some _ =>
      ((h0 ++ [Stat path])
       ++ [Log "Socket file does not exist, nothing to tear down"],
       Fulfilled (Success (TearDownSocketOp.mkTearDownResult false false)))
  | None =>
      match runCommand_promise W (spawn W h1 "ssh" args) with
      | Pending => (h2, Pending)
      | Fulfilled r =>
          remove
            (h2 ++ [Log (if (exitCode r =? 0)%Z
                         then "Socket exited cleanly"
                         else "Socket exit command failed (may already be dead)")])
            (exitCode r =? 0)%Z
      | Rejected e =>
          remove (h2 ++ [LogError ("Exception: " ++ message_of e)]) false
      end
  end.
Proof.
  intros path args h0 h1 h2 remove.
  rewrite TearDown_run_cases, Exit_run_cases. fold path.
  cbn [SSHExitSocketOp.socketPath SSHExitSocketOp.host].
  fold h0. fold args. fold h1. fold h2.
  destruct (fs_stat W h0 path); [reflexivity |].
  destruct (runCommand_promise W _) as [ | r | e]; reflexivity.
Qed.

Ltac calls_made :=
  cbn [fst]; rewrite <- ?app_assoc; cbn [app];
  eexists; split; [reflexivity |];
  unfold unlinks, spawns; cbn [filter is_Unlink is_Spawn];
  repeat split; auto; try discriminate.

(** Create, Check, Exec, Exit and Validate only add calls to the
    history; they never unlink a file; and they spawn at most one child
    process, which is [ssh]. Check, Exec, Exit and Validate spawn it
    only when the socket file could be [stat]ed. *)
Theorem operations_spawn_at_most_once (W : World) (h : History) :
  (forall op, exists calls,
     calls_after (SSHCreateSocketOp.run W op) h = h ++ calls
     /\ unlinks calls = []
     /\ spawns calls
        = [Spawn "ssh" (SSHCreateSocketOp.ssh_args op
                          (SSHCreateSocketOp.getSocketPath op))])
  /\ (forall op, exists calls,
        calls_after (SSHCheckSocketOp.run W op) h = h ++ calls
        /\ unlinks calls = []
        /\ (spawns calls = []
            \/ spawns calls
               = [Spawn "ssh" [ "-S"; SSHCheckSocketOp.socketPath op;
                                "-O"; "check"; SSHCheckSocketOp.host op ]]
               /\ fs_stat W h (SSHCheckSocketOp.socketPath op) = None))
  /\ (forall op, exists calls,
        calls_after (SSHExecOp.run W op) h = h ++ calls
        /\ unlinks calls = []
        /\ (spawns calls = []
            \/ spawns calls = [Spawn "ssh" (SSHExecOp.ssh_args op)]
               /\ fs_stat W h (SSHExecOp.socketPath op) = None))
  /\ (forall op, exists calls,
        calls_after (SSHExitSocketOp.run W op) h = h ++ calls
        /\ unlinks calls = []
        /\ (spawns calls = []
            \/ spawns calls
               = [Spawn "ssh" [ "-S"; SSHExitSocketOp.socketPath op;
                                "-O"; "exit"; SSHExitSocketOp.host op ]]
               /\ fs_stat W h (SSHExitSocketOp.socketPath op) = None))
  /\ (forall op, exists calls,
        calls_after (ValidateSocketOp.run W op) h = h ++ calls
        /\ unlinks calls = []
        /\ (spawns calls = []
            \/ spawns calls
               = [Spawn "ssh" [ "-S"; ValidateSocketOp.socketPath op;
                                "-O"; "check"; ValidateSocketOp.host op ]]
               /\ fs_stat W
                    (h ++ [Log ("Validating socket: "
                                ++ ValidateSocketOp.socketPath op)])
                    (ValidateSocketOp.socketPath op) = None)).
Proof.
  unfold calls_after. split; [| split; [| split; [| split]]]; intros op.
  - rewrite Create_run_cases. cbv zeta.
    destruct (runCommand_promise W _) as [ | r | e];
      [| destruct (exitCode r =? 0)%Z |]; calls_made.
  - rewrite Check_run_cases. cbv zeta.
    destruct (fs_stat W h _) eqn:Hs; [calls_made |].
    destruct (runCommand_promise W _) as [ | r | e];
      [| destruct (exitCode r =? 0)%Z |]; calls_made.
  - rewrite Exec_run_cases. cbv zeta.
    destruct (fs_stat W h _) eqn:Hs; [calls_made |].
    destruct (runCommandBuffers_promise W _) as [ | r | e];
      [| destruct (bExitCode r =? 255)%Z |]; calls_made.
  - rewrite Exit_run_cases. cbv zeta.
    destruct (fs_stat W h _) eqn:Hs; [calls_made |].
    destruct (runCommand_promise W _) as [ | r | e]; calls_made.
  - rewrite Validate_run_world. cbv zeta.
    destruct (fs_stat W _ _) eqn:Hs; [calls_made |].
    destruct (runCommand_promise W _) as [ | r | e];
      [| destruct (exitCode r =? 0)%Z |]; calls_made.
Qed.

(** Once the socket file has been [stat]ed and the exit command has
    come to an end, whatever way (any exit code, or an exception of
    [spawn]), TearDown goes on to unlink the file; when [unlink] is
    fulfilled it succeeds with [fileRemoved: true], and
    [exitedCleanly] is true exactly when the exit command ended with
    code 0. The socket path is the one file it unlinks. *)
Theorem TearDown_removes_file (W : World) (op : TearDownSocketOp.t)
    (h : History) :
  let path := TearDownSocketOp.socketPath op in
  let h0 := h ++ [Log ("Tearing down socket: " ++ path)] in
  let h1 := (h0 ++ [Stat path]) ++ [Log ("Requesting socket exit: " ++ path)] in
  let ended :=
    snd (runCommand W "ssh"
           [ "-S"; path; "-O"; "exit"; TearDownSocketOp.host op ] h1) in
  let hx :=
    calls_after
      (SSHExitSocketOp.run W
         (SSHExitSocketOp.mk path (TearDownSocketOp.host op))) h0 in
  fs_stat W h0 path = None ->
  ended <> Pending ->
  fs_unlink W (hx ++ [Log ("Removing socket file: " ++ path)]) path = None ->
  settles_to (TearDownSocketOp.run W op) h
    (Success
       (TearDownSocketOp.mkTearDownResult
          match ended with
          | Fulfilled r => (exitCode r =? 0)%Z
          | _ => false
          end
          true))
  /\ unlinks (calls_after (TearDownSocketOp.run W op) h)
     = unlinks h ++ [Unlink path].
Proof.
  intros path h0 h1 ended hx Hs He Hu.
  unfold settles_to, calls_after in *. subst hx ended.
  rewrite runCommand_run in *. cbn [snd] in *.
  rewrite Exit_run_cases in Hu.
  cbn [SSHExitSocketOp.socketPath SSHExitSocketOp.host] in Hu.
  fold h0 in Hu. fold h1 in Hu. rewrite Hs in Hu.
  rewrite TearDown_run_world. fold path. fold h0. fold h1. rewrite Hs.
  cbv zeta.
  destruct (runCommand_promise W _) as [ | r | e]; [now contradiction He | |].
  all: cbn [fst] in Hu; rewrite Remove_run_cases;
    cbn [RemoveSocketFileOp.socketPath]; rewrite Hu; cbn [fst snd].
  all: split; [reflexivity |].
  all: subst h1 h0; rewrite !unlinks_app; cbn; now rewrite !app_nil_r.
Qed.

Lemma TearDown_removes_file_witness :
  let op := TearDownSocketOp.mk "/tmp/s" "user@host" in
  let dead :=
    Scenario.world ["/tmp/s"]
      (Scenario.ssh_fails 255 "Control socket connect(/tmp/s): Connection refused")
      None in
  let stuck := Scenario.world ["/tmp/s"] (spawn_throws Scenario.E2BIG) None in
  (settles_to (TearDownSocketOp.run dead op) []
     (Success (TearDownSocketOp.mkTearDownResult false true))
   /\ unlinks (calls_after (TearDownSocketOp.run dead op) [])
      = [Unlink "/tmp/s"])
  /\ (settles_to (TearDownSocketOp.run stuck op) []
        (Success (TearDownSocketOp.mkTearDownResult false true))
      /\ unlinks (calls_after (TearDownSocketOp.run stuck op) [])
         = [Unlink "/tmp/s"]).
Proof.
  intros op dead stuck. split.
  - apply (TearDown_removes_file dead op []);
      [reflexivity | discriminate | reflexivity].
  - apply (TearDown_removes_file stuck op []);
      [reflexivity | discriminate | reflexivity].
Defined.

(** TearDown fails in one way only: with [RemoveFailed], after the
    socket file was [stat]ed and [unlink] was rejected with something
    other than an error of code [ENOENT]. Not a missing socket, not a
    failing exit command and not an exception of [spawn] makes it
    fail. *)
Theorem TearDown_fails_only_on_unlink (W : World) (op : TearDownSocketOp.t)
    (h : History) (f : TearDownSocketOp.TearDownSocketFailure) (d : string) :
  let path := TearDownSocketOp.socketPath op in
  let h0 := h ++ [Log ("Tearing down socket: " ++ path)] in
  let hx :=
    calls_after
      (SSHExitSocketOp.run W
         (SSHExitSocketOp.mk path (TearDownSocketOp.host op))) h0 in
  settles_to (TearDownSocketOp.run W op) h (Failure f d) ->
  f = TearDownSocketOp.RemoveFailed
  /\ fs_stat W h0 path = None
  /\ exists e,
       fs_unlink W (hx ++ [Log ("Removing socket file: " ++ path)]) path
       = Some e
       /\ forall message, e <> ErrorObject (Some "ENOENT") message.
Proof.
  intros path h0 hx. unfold settles_to, calls_after in *. subst hx.
  rewrite Exit_run_cases.
  cbn [SSHExitSocketOp.socketPath SSHExitSocketOp.host]. fold h0.
  rewrite TearDown_run_world. fold path. fold h0. cbv zeta.
  destruct (fs_stat W h0 path) as [e |]; [discriminate |].
  destruct (runCommand_promise W _) as [ | r | e]; [discriminate | |].
  all: cbn [fst]; rewrite Remove_run_cases;
    cbn [RemoveSocketFileOp.socketPath].
  all: destruct (fs_unlink W _ path) as [[code message | message] | ];
    try discriminate.
  all: try (destruct (RemoveSocketFileOp.code_is code "ENOENT") eqn:E1;
            [discriminate |];
            destruct (RemoveSocketFileOp.code_is code "EACCES"
                      || RemoveSocketFileOp.code_is code "EPERM")).
  all: cbn [snd]; intros H; inversion H; subst.
  all: split; [reflexivity | split; [reflexivity |]].
  all: eexists; split; [reflexivity |]; intros m Hm; try discriminate Hm.
  all: injection Hm as -> _; discriminate E1.
Qed.

Lemma TearDown_fails_only_on_unlink_witness :
  let op := TearDownSocketOp.mk "/tmp/s" "user@host" in
  let denied :=
    Scenario.world ["/tmp/s"] (Scenario.ssh_prints 0 "Exit request sent.")
      (Some Scenario.EACCES) in
  TearDownSocketOp.RemoveFailed = TearDownSocketOp.RemoveFailed
  /\ fs_stat denied [Log "Tearing down socket: /tmp/s"] "/tmp/s" = None
  /\ exists e,
       fs_unlink denied
         (calls_after
            (SSHExitSocketOp.run denied (SSHExitSocketOp.mk "/tmp/s" "user@host"))
            [Log "Tearing down socket: /tmp/s"]
          ++ [Log "Removing socket file: /tmp/s"]) "/tmp/s"
       = Some e
       /\ forall message, e <> ErrorObject (Some "ENOENT") message.
Proof.
  intros op denied.
  apply (TearDown_fails_only_on_unlink denied op []
           TearDownSocketOp.RemoveFailed "Permission denied: /tmp/s").
  reflexivity.
Defined.

(** TearDown only adds calls to the history; it spawns at most one
    child process, the [ssh -O exit] for its socket, and unlinks at
    most one file, its socket path, and that only after the socket file
    could be [stat]ed. *)
Theorem TearDown_calls (W : World) (op : TearDownSocketOp.t) (h : History) :
  let path := TearDownSocketOp.socketPath op in
  exists calls,
    calls_after (TearDownSocketOp.run W op) h = h ++ calls
    /\ (spawns calls = []
        \/ spawns calls
           = [Spawn "ssh" [ "-S"; path; "-O"; "exit";
                            TearDownSocketOp.host op ]])
    /\ (unlinks calls = []
        \/ unlinks calls = [Unlink path]
           /\ fs_stat W (h ++ [Log ("Tearing down socket: " ++ path)]) path
              = None).
Proof.
  intros path. unfold calls_after.
  rewrite TearDown_run_world. fold path. cbv zeta.
  destruct (fs_stat W _ path) eqn:Hs; [calls_made |].
  destruct (runCommand_promise W _) as [ | r | e]; [calls_made | |].
  all: rewrite Remove_run_cases; cbn [RemoveSocketFileOp.socketPath];
    cbv zeta.
  all: destruct (fs_unlink W _ path) as [[code message | message] | ];
    try (destruct (RemoveSocketFileOp.code_is code "ENOENT");
         [| destruct (RemoveSocketFileOp.code_is code "EACCES"
                      || RemoveSocketFileOp.code_is code "EPERM")]).
  all: calls_made.
Qed.

(* ===================================================================== *)
(** ** No exception escapes, and every operation comes to an end *)
(* ===================================================================== *)

(** A [try] whose handler always ends with a value never leaves a
    rejected promise. *)
Lemma catch_handled {A} (m : Async A) (handler : Thrown -> Async A)
    (h : History) :
  (forall e h', exists h'' a, handler e h' = (h'', Fulfilled a)) ->
  forall e, snd (catch m handler h) <> Rejected e.
Proof.
  intros Hh e. rewrite catch_run.
  destruct (m h) as [h' [ | a | e']]; cbn [snd]; try discriminate.
  destruct (Hh e' h') as (h'' & a & ->). discriminate.
Qed.

Ltac handler_ends :=
  intros; cbv beta zeta; rewrite ?bind_run, ?logError_run;
  do 2 eexists; reflexivity.

(** The promise an operation returns is never rejected, whatever
    [stat], [unlink] and [spawn] throw: this holds for both copies of
    Create and for Check, Exec, Exit, RemoveSocketFile, TearDown and
    Validate. *)
Theorem no_exception_escapes (W : World) (h : History) (e : Thrown) :
  (forall op, snd (SSHCreateSocketOp.run W op h) <> Rejected e)
  /\ (forall op, snd (SSHCreateSocketOp_part_000.run W op h) <> Rejected e)
  /\ (forall op, snd (SSHCheckSocketOp.run W op h) <> Rejected e)
  /\ (forall op, snd (SSHExecOp.run W op h) <> Rejected e)
  /\ (forall op, snd (SSHExitSocketOp.run W op h) <> Rejected e)
  /\ (forall op, snd (RemoveSocketFileOp.run W op h) <> Rejected e)
  /\ (forall op, snd (TearDownSocketOp.run W op h) <> Rejected e)
  /\ (forall op, snd (ValidateSocketOp.run W op h) <> Rejected e).
Proof.
  repeat apply conj; intros op.
  - apply catch_handled. handler_ends.
  - apply catch_handled. handler_ends.
  - apply catch_handled. handler_ends.
  - apply catch_handled. handler_ends.
  - apply catch_handled. handler_ends.
  - apply catch_handled. intros [code message | message] h'.
    + cbv beta iota.
      destruct (RemoveSocketFileOp.code_is code "ENOENT");
        [handler_ends |].
      destruct (RemoveSocketFileOp.code_is code "EACCES"
                || RemoveSocketFileOp.code_is code "EPERM");
        handler_ends.
    + handler_ends.
  - apply catch_handled. handler_ends.
  - apply catch_handled. handler_ends.
Qed.

Lemma no_exception_escapes_witness :
  snd (TearDownSocketOp.run
         (Scenario.world ["/tmp/s"] (spawn_throws Scenario.E2BIG)
            (Some (NonError "boom")))
         (TearDownSocketOp.mk "/tmp/s" "user@host") [])
  <> Rejected (NonError "boom").
Proof.
  apply (proj1 (proj2 (proj2 (proj2 (proj2 (proj2 (proj2
           (no_exception_escapes
              (Scenario.world ["/tmp/s"] (spawn_throws Scenario.E2BIG)
                 (Some (NonError "boom")))
              [] (NonError "boom"))))))))).
Defined.

(** In a world where every child ends, the command-execution service
    settles its promise. *)
Lemma service_settles (W : World) (h : History) (command : string)
    (args : list string) :
  Liveness.every_child_ends W ->
  runCommand_promise W (spawn W h command args) <> Pending
  /\ runCommandBuffers_promise W (spawn W h command args) <> Pending.
Proof.
  intros Hw. specialize (Hw h command args).
  destruct (spawn W h command args) as [e | events];
    [split; discriminate |].
  cbn [Liveness.comes_to_an_end] in Hw.
  apply first_settling_event in Hw as (pre & ev & post & -> & Hpre & Hev).
  rewrite (runCommand_promise_settled W pre post ev Hpre),
    (runCommandBuffers_promise_settled W pre post ev Hpre).
  destruct ev; try discriminate Hev; split; discriminate.
Qed.

Ltac chain_ends :=
  repeat match goal with
         | |- context [if ?b then _ else _] => destruct b
         end;
  eexists; reflexivity.

(** Case analysis on the promise of the service, in a world where it
    cannot stay pending. *)
Ltac service_cases Hw r e :=
  match goal with
  | |- context [runCommand_promise ?W (spawn ?W ?h' ?c ?a)] =>
      let Hn := fresh "Hn" in
      pose proof (proj1 (service_settles W h' c a Hw)) as Hn;
      destruct (runCommand_promise W (spawn W h' c a)) as [ | r | e];
      [now contradiction Hn | | ]
  | |- context [runCommandBuffers_promise ?W (spawn ?W ?h' ?c ?a)] =>
      let Hn := fresh "Hn" in
      pose proof (proj2 (service_settles W h' c a Hw)) as Hn;
      destruct (runCommandBuffers_promise W (spawn W h' c a)) as [ | r | e];
      [now contradiction Hn | | ]
  end.

(** RemoveSocketFile always comes to an end. In a world where [spawn]
    throws or returns a child that emits ['close'] or ['error'], so do
    both copies of Create and Check, Exec, Exit, TearDown and
    Validate: the promise is fulfilled with an outcome. *)
Theorem operations_complete (W : World) (h : History) :
  (forall op, exists o, settles_to (RemoveSocketFileOp.run W op) h o)
  /\ (Liveness.every_child_ends W ->
      (forall op, exists o, settles_to (SSHCreateSocketOp.run W op) h o)
      /\ (forall op, exists o,
            settles_to (SSHCreateSocketOp_part_000.run W op) h o)
      /\ (forall op, exists o, settles_to (SSHCheckSocketOp.run W op) h o)
      /\ (forall op, exists o, settles_to (SSHExecOp.run W op) h o)
      /\ (forall op, exists o, settles_to (SSHExitSocketOp.run W op) h o)
      /\ (forall op, exists o, settles_to (TearDownSocketOp.run W op) h o)
      /\ (forall op, exists o, settles_to (ValidateSocketOp.run W op) h o)).
Proof.
  assert (Hremove : forall h' op, exists o,
            settles_to (RemoveSocketFileOp.run W op) h' o).
  { intros h' op. unfold settles_to. rewrite Remove_run_cases. cbv zeta.
    destruct (fs_unlink W _ _) as [[code message | message] | ];
      chain_ends. }
  split; [apply Hremove |]. intros Hw.
  unfold settles_to. repeat apply conj; intros op.
  - rewrite Create_run_cases. cbv zeta.
    service_cases Hw r e; chain_ends.
  - unfold SSHCreateSocketOp_part_000.run. cbv zeta.
    rewrite catch_run, bind_run, log_run, bind_run, runCommand_run.
    service_cases Hw r e; [| chain_ends].
    destruct (exitCode r =? 0)%Z; [eexists; reflexivity |].
    rewrite bind_run, logError_run. chain_ends.
  - rewrite Check_run_cases. cbv zeta.
    destruct (fs_stat W h _); [chain_ends |].
    service_cases Hw r e; chain_ends.
  - rewrite Exec_run_cases. cbv zeta.
    destruct (fs_stat W h _); [chain_ends |].
    service_cases Hw r e; chain_ends.
  - rewrite Exit_run_cases. cbv zeta.
    destruct (fs_stat W h _); [chain_ends |].
    service_cases Hw r e; chain_ends.
  - rewrite TearDown_run_world. cbv zeta.
    destruct (fs_stat W _ _); [chain_ends |].
    service_cases Hw r e.
    all: match goal with
         | |- context [RemoveSocketFileOp.run ?W' ?o ?h'] =>
             destruct (Hremove h' o) as [o' Ho'];
             unfold settles_to in Ho';
             destruct (RemoveSocketFileOp.run W' o h') as [hr p];
             cbn [snd] in Ho'; subst p
         end.
    all: destruct o' as [b | [] d]; eexists; reflexivity.
  - rewrite Validate_run_world. cbv zeta.
    destruct (fs_stat W _ _); [chain_ends |].
    service_cases Hw r e; chain_ends.
Qed.

Lemma operations_complete_witness :
  let live :=
    Scenario.world ["/tmp/s"] (Scenario.ssh_prints 0 "Master running") None in
  Liveness.every_child_ends live
  /\ (exists o,
        settles_to
          (TearDownSocketOp.run live (TearDownSocketOp.mk "/tmp/s" "user@host"))
          [] o)
  /\ (exists o,
        settles_to
          (SSHExecOp.run live (SSHExecOp.new "/tmp/s" "user@host" "ls" None))
          [] o).
Proof.
  intros live.
  assert (Hlive : Liveness.every_child_ends live).
  { intros h command args. cbn.
    destruct (String.eqb command ""); reflexivity. }
  split; [exact Hlive |].
  pose proof (proj2 (operations_complete live []) Hlive)
    as (_ & _ & _ & HExec & _ & HTearDown & _).
  split; [apply HTearDown | apply HExec].
Defined.

(* ===================================================================== *)
(** ** The two copies of Create *)
(* ===================================================================== *)

Ltac atom_case text pattern :=
  destruct (JsString.includes text pattern) eqn:?; cbn [orb andb].

(** The copy of Create in [src/unnamed/part_000] never fails with
    [PermissionDenied]: its test for the publickey pattern comes after
    the test for ["Permission denied"], which every text with the
    publickey pattern passes. *)
Theorem Create_part_000_never_PermissionDenied (W : World)
    (op : SSHCreateSocketOp.t) (h : History)
    (f : SSHCreateSocketOp.SSHCreateSocketFailure) (d : string) :
  settles_to (SSHCreateSocketOp_part_000.run W op) h (Failure f d) ->
  f <> SSHCreateSocketOp.PermissionDenied.
Proof.
  intros Ho ->. revert Ho.
  unfold settles_to, SSHCreateSocketOp_part_000.run. cbv zeta.
  rewrite catch_run, bind_run, log_run, bind_run, runCommand_run.
  destruct (runCommand_promise W _) as [ | r | e]; try discriminate.
  destruct (exitCode r =? 0)%Z; [discriminate |].
  rewrite bind_run, logError_run.
  set (text := stderr r).
  atom_case text "Permission denied"; [discriminate |].
  atom_case text "Authentication failed"; [discriminate |].
  atom_case text "REMOTE HOST IDENTIFICATION HAS CHANGED"; [discriminate |].
  atom_case text "Host key verification failed"; [discriminate |].
  atom_case text "Could not resolve hostname"; [discriminate |].
  atom_case text "Name or service not known"; [discriminate |].
  atom_case text "Connection refused"; [discriminate |].
  atom_case text "Operation timed out"; [discriminate |].
  atom_case text "Connection timed out"; [discriminate |].
  destruct (JsString.includes text "Permission denied (publickey") eqn:Hpk;
    [| discriminate].
  apply (includes_prefix _ "Permission denied" " (publickey") in Hpk.
  congruence.
Qed.

Lemma Create_part_000_never_PermissionDenied_witness :
  SSHCreateSocketOp.AuthenticationFailed <> SSHCreateSocketOp.PermissionDenied.
Proof.
  apply (Create_part_000_never_PermissionDenied
           (Scenario.world []
              (Scenario.ssh_fails 255
                 "user@host: Permission denied (publickey,password).")
              None)
           (SSHCreateSocketOp.new "user@host" None None None) []
           SSHCreateSocketOp.AuthenticationFailed
           "user@host: Permission denied (publickey,password).").
  reflexivity.
Defined.

(** The two copies of Create do the same, calls and outcome, unless
    [ssh] ends with a nonzero code and its standard error has one of
    four patterns in it: the publickey pattern, which the copy in
    [src/unnamed/part_000] tests too late, and ["Network is
    unreachable"], ["No route to host"] and ["Broken pipe"], which it
    does not know. *)
Theorem Create_copies_agree (W : World) (op : SSHCreateSocketOp.t)
    (h : History) :
  let path := SSHCreateSocketOp.getSocketPath op in
  let h1 := h ++ [Log ("Creating control socket at " ++ path ++ " for "
                       ++ SSHCreateSocketOp.host op)] in
  (forall r,
     settles_to (runCommand W "ssh" (SSHCreateSocketOp.ssh_args op path)) h1 r ->
     exitCode r <> 0%Z ->
     Classification.any_of
       [ "Permission denied (publickey"; "Network is unreachable";
         "No route to host"; "Broken pipe" ] (stderr r) = false) ->
  SSHCreateSocketOp_part_000.run W op h = SSHCreateSocketOp.run W op h.
Proof.
  intros path h1 Hr. unfold settles_to in Hr.
  unfold SSHCreateSocketOp_part_000.run, SSHCreateSocketOp.run.
  fold path. cbv zeta.
  rewrite !catch_run, !bind_run, !log_run, !bind_run, !runCommand_run.
  fold h1. rewrite runCommand_run in Hr. cbn [snd] in Hr.
  destruct (runCommand_promise W _) as [ | r | e]; try reflexivity.
  specialize (Hr r eq_refl).
  destruct (exitCode r =? 0)%Z eqn:Hc; [reflexivity |].
  apply Z.eqb_neq in Hc. specialize (Hr Hc).
  cbn [Classification.any_of existsb] in Hr.
  rewrite orb_false_r in Hr.
  apply orb_false_iff in Hr as [Hpk Hr].
  apply orb_false_iff in Hr as [Hnet Hr].
  apply orb_false_iff in Hr as [Hroute Hpipe].
  rewrite !bind_run, !logError_run, Hpk, Hnet, Hroute, Hpipe.
  now rewrite !orb_false_r.
Qed.

Lemma Create_copies_agree_witness :
  let op := SSHCreateSocketOp.new "user@nowhere" None None None in
  let lost :=
    Scenario.world []
      (Scenario.ssh_fails 255
         "ssh: Could not resolve hostname nowhere: Name or service not known")
      None in
  SSHCreateSocketOp_part_000.run lost op [] = SSHCreateSocketOp.run lost op [].
Proof.
  intros op lost. apply (Create_copies_agree lost op []).
  intros r Hr _. unfold settles_to in Hr. cbn in Hr.
  injection Hr as <-. reflexivity.
Defined.

(* ===================================================================== *)
(** ** More on the command-execution service *)
(* ===================================================================== *)

(** The result of [runCommand] and of [runCommandBuffers] is decided by
    the first ['close'] or ['error'] and by what each pipe delivered
    before it: what the child emits afterwards (more data, a ['close']
    after an ['error']) changes nothing, and neither does the order in
    which chunks of the two pipes alternate. *)
Theorem settling_event_decides (W : World)
    (pre pre' post post' : list ChildEvent) (ev : ChildEvent) :
  forallb is_data pre = true ->
  forallb is_data pre' = true ->
  is_data ev = false ->
  stdout_of pre = stdout_of pre' ->
  stderr_of pre = stderr_of pre' ->
  runCommand_promise W (spawn_child (pre ++ ev :: post))
  = runCommand_promise W (spawn_child (pre' ++ ev :: post'))
  /\ runCommandBuffers_promise W (spawn_child (pre ++ ev :: post))
     = runCommandBuffers_promise W (spawn_child (pre' ++ ev :: post')).
Proof.
  intros Hpre Hpre' Hev Hout Herr.
  rewrite (runCommand_promise_settled W pre post ev Hpre),
    (runCommand_promise_settled W pre' post' ev Hpre'),
    (runCommandBuffers_promise_settled W pre post ev Hpre),
    (runCommandBuffers_promise_settled W pre' post' ev Hpre').
  destruct ev; try discriminate Hev; rewrite ?Hout, ?Herr; split; reflexivity.
Qed.

Lemma settling_event_decides_witness :
  let W := Scenario.world [] (spawn_child []) None in
  let a := list_byte_of_string "a" in
  let b := list_byte_of_string "b" in
  runCommand_promise W
    (spawn_child ([stdout_data a; stderr_data b] ++ error "spawn ssh ENOENT"
                  :: [close (Some (-2)%Z)]))
  = runCommand_promise W
      (spawn_child ([stderr_data b; stdout_data a] ++ error "spawn ssh ENOENT"
                    :: []))
  /\ runCommandBuffers_promise W
       (spawn_child ([stdout_data a; stderr_data b] ++ error "spawn ssh ENOENT"
                     :: [close (Some (-2)%Z)]))
     = runCommandBuffers_promise W
         (spawn_child ([stderr_data b; stdout_data a] ++ error "spawn ssh ENOENT"
                       :: [])).
Proof.
  intros W a b.
  apply (settling_event_decides W); reflexivity.
Defined.

(** The promise of the service stays pending exactly when [spawn]
    returned a child that emits nothing but data. *)
Theorem service_pending_iff (W : World) (s : Spawned) :
  (runCommand_promise W s = Pending
   <-> exists events, s = spawn_child events /\ forallb is_data events = true)
  /\ (runCommandBuffers_promise W s = Pending
      <-> exists events,
            s = spawn_child events /\ forallb is_data events = true).
Proof.
  assert (Hsplit : forall events,
            forallb is_data events = true
            \/ exists pre ev post,
                 events = pre ++ ev :: post
                 /\ forallb is_data pre = true /\ is_data ev = false).
  { intros events.
    destruct (existsb (fun ev => negb (is_data ev)) events) eqn:E.
    - right. now apply first_settling_event.
    - left. apply forallb_forall. intros ev Hin.
      destruct (is_data ev) eqn:Hev; [reflexivity |].
      assert (existsb (fun ev => negb (is_data ev)) events = true)
        by (apply existsb_exists; exists ev; now rewrite Hev).
      congruence. }
  destruct s as [e | events].
  - split; split; try discriminate; intros (events & H & _); discriminate H.
  - destruct (Hsplit events) as [Hd | (pre & ev & post & -> & Hpre & Hev)].
    + split; split; intros _.
      * now exists events.
      * unfold runCommand_promise.
        now rewrite (runCommand_on_data W events Hd).
      * now exists events.
      * unfold runCommandBuffers_promise.
        now rewrite (runCommandBuffers_on_data W events Hd).
    + rewrite (runCommand_promise_settled W pre post ev Hpre),
        (runCommandBuffers_promise_settled W pre post ev Hpre).
      assert (Hnot : forallb is_data (pre ++ ev :: post) = false).
      { rewrite forallb_app. cbn [forallb]. rewrite Hev.
        now rewrite andb_false_r. }
      split; split.
      all: try (intros (events & Heq & Hd); injection Heq as <-; congruence).
      all: destruct ev; try discriminate Hev; discriminate.
Qed.

Lemma service_pending_iff_witness :
  let W := Scenario.world [] (spawn_child []) None in
  let silent := spawn_child [ stdout_data (list_byte_of_string "waiting") ] in
  runCommand_promise W silent = Pending
  /\ runCommandBuffers_promise W silent = Pending.
Proof.
  intros W silent. split.
  - apply (proj1 (service_pending_iff W silent)).
    eexists. split; reflexivity.
  - apply (proj2 (service_pending_iff W silent)).
    eexists. split; reflexivity.
Defined.

(** With a text codec that decodes the empty buffer to the empty string
    and decodes what it encoded, [runCommand] gives what decoding the
    two buffers of [runCommandBuffers] gives, for everything [spawn]
    and the child may do: the two are pending together, rejected
    together with the same reason, and fulfilled together with the same
    exit code and the same texts. *)
Theorem runCommand_decodes_runCommandBuffers (W : World) (s : Spawned) :
  buffer_toString W [] = "" ->
  (forall text, buffer_toString W (buffer_from W text) = text) ->
  runCommand_promise W s =
  match runCommandBuffers_promise W s with
  | Pending => Pending
  | Rejected e => Rejected e
  | Fulfilled r =>
      Fulfilled (mkShellResult (bExitCode r)
                   (buffer_toString W (stdoutBuffer r))
                   (buffer_toString W (stderrBuffer r)))
  end.
Proof.
  intros Hempty Hround.
  destruct s as [e | events]; [reflexivity |].
  destruct (existsb (fun ev => negb (is_data ev)) events) eqn:E.
  - apply first_settling_event in E as (pre & ev & post & -> & Hpre & Hev).
    rewrite (runCommand_promise_settled W pre post ev Hpre),
      (runCommandBuffers_promise_settled W pre post ev Hpre).
    destruct ev; try discriminate Hev; cbn; [reflexivity |].
    now rewrite Hempty, Hround.
  - assert (Hd : forallb is_data events = true).
    { apply forallb_forall. intros ev Hin.
      destruct (is_data ev) eqn:Hev; [reflexivity |].
      assert (existsb (fun ev => negb (is_data ev)) events = true)
        by (apply existsb_exists; exists ev; now rewrite Hev).
      congruence. }
    unfold runCommand_promise, runCommandBuffers_promise.
    now rewrite (runCommand_on_data W events Hd),
      (runCommandBuffers_on_data W events Hd).
Qed.

Lemma runCommand_decodes_runCommandBuffers_witness :
  let W := Scenario.world [] (spawn_child []) None in
  runCommand_promise W (Scenario.ssh_fails 255 "Connection refused")
  = Fulfilled (mkShellResult 255 "" "Connection refused").
Proof.
  intros W.
  rewrite (runCommand_decodes_runCommandBuffers W
             (Scenario.ssh_fails 255 "Connection refused")
             eq_refl string_of_list_byte_of_string).
  reflexivity.
Defined.

(* ===================================================================== *)
(** ** More on the socket path *)
(* ===================================================================== *)

Lemma spec_sanitize_app (a b : string) :
  SSHCreateSocketOp.spec_sanitize (a ++ b)
  = (SSHCreateSocketOp.spec_sanitize a
     ++ SSHCreateSocketOp.spec_sanitize b)%string.
Proof.
  unfold SSHCreateSocketOp.spec_sanitize.
  induction a as [|c a IH]; [reflexivity |].
  cbn [append JsString.map JsString.filter].
  destruct (JsString.alnum_or_dash _); cbn [append]; now rewrite IH.
Qed.

Lemma spec_sanitize_safe (s : string) :
  JsString.forallb JsString.alnum_or_dash s = true ->
  SSHCreateSocketOp.spec_sanitize s = s.
Proof.
  unfold SSHCreateSocketOp.spec_sanitize.
  induction s as [|c s IH]; [reflexivity |].
  cbn [JsString.forallb JsString.map JsString.filter].
  intros H. apply andb_true_iff in H as [Hc Hs].
  destruct (Ascii.eqb_spec c "@") as [-> | _]; [discriminate Hc |].
  destruct (Ascii.eqb_spec c ".") as [-> | _]; [discriminate Hc |].
  destruct (Ascii.eqb_spec c ":") as [-> | _]; [discriminate Hc |].
  cbn [orb]. now rewrite Hc, (IH Hs).
Qed.

Lemma spec_sanitize_length (s : string) :
  String.length (SSHCreateSocketOp.spec_sanitize s) <= String.length s.
Proof.
  unfold SSHCreateSocketOp.spec_sanitize.
  induction s as [|c s IH]; [reflexivity |].
  cbn [JsString.map JsString.filter String.length].
  destruct (JsString.alnum_or_dash _); cbn [String.length]; lia.
Qed.

(** The sanitizer of [#getSocketPath] works character by character, so
    it distributes over concatenation; it never lengthens the host; and
    applying it to its own result changes nothing. *)
Theorem sanitized_algebra (a b : string) :
  SSHCreateSocketOp.sanitized (a ++ b)
  = (SSHCreateSocketOp.sanitized a ++ SSHCreateSocketOp.sanitized b)%string
  /\ String.length (SSHCreateSocketOp.sanitized a) <= String.length a
  /\ SSHCreateSocketOp.sanitized (SSHCreateSocketOp.sanitized a)
     = SSHCreateSocketOp.sanitized a.
Proof.
  rewrite !sanitized_spec. repeat split.
  - apply spec_sanitize_app.
  - apply spec_sanitize_length.
  - apply spec_sanitize_safe. apply filter_forallb.
Qed.

(** Derived socket paths collide. Hosts that differ only in which of
    ['@'], ['.'], [':'] and ['-'] stands at some place get the same
    path, and so do hosts that differ only by a character outside
    [[A-Za-z0-9-]] other than these three, an underscore for one. *)
Theorem derived_paths_collide (a b : string) (t s : Z) :
  let path host :=
    SSHCreateSocketOp.getSocketPath (SSHCreateSocketOp.mk host None t s) in
  path (a ++ "@" ++ b)%string = path (a ++ "-" ++ b)%string
  /\ path (a ++ "." ++ b)%string = path (a ++ "-" ++ b)%string
  /\ path (a ++ ":" ++ b)%string = path (a ++ "-" ++ b)%string
  /\ forall c : ascii,
       JsString.alnum_or_dash c = false ->
       c <> "@"%char -> c <> "."%char -> c <> ":"%char ->
       path (a ++ String c b)%string = path (a ++ b)%string.
Proof.
  intros path. unfold path, SSHCreateSocketOp.getSocketPath.
  cbn [SSHCreateSocketOp.socketPath SSHCreateSocketOp.host].
  split; [| split; [| split]].
  1-3: rewrite !sanitized_spec, !spec_sanitize_app; reflexivity.
  intros c Hc N1 N2 N3.
  rewrite !sanitized_spec, !spec_sanitize_app. do 2 f_equal.
  unfold SSHCreateSocketOp.spec_sanitize.
  cbn [JsString.map JsString.filter].
  destruct (Ascii.eqb_spec c "@"); [contradiction |].
  destruct (Ascii.eqb_spec c "."); [contradiction |].
  destruct (Ascii.eqb_spec c ":"); [contradiction |].
  cbn [orb]. now rewrite Hc.
Qed.

Lemma derived_paths_collide_witness :
  let path host :=
    SSHCreateSocketOp.getSocketPath
      (SSHCreateSocketOp.mk host None 10 30) in
  path "build_host" = path "buildhost".
Proof.
  intros path.
  apply (proj2 (proj2 (proj2 (derived_paths_collide "build" "host" 10 30)))
           "_"%char);
    [reflexivity | discriminate | discriminate | discriminate].
Defined.

(* ===================================================================== *)
(** ** The arguments of the application: [parseArgs] *)
(* ===================================================================== *)

Lemma split_nonempty (sep : ascii) (s : string) : parseArgs.split sep s <> [].
Proof.
  destruct s as [|c s]; cbn; [discriminate |].
  destruct (Ascii.eqb c sep); [discriminate |].
  destruct (parseArgs.split sep s); discriminate.
Qed.

(** The first piece of [s.split(sep)] is [s] up to its first separator. *)
Lemma split_first_piece (sep : ascii) (s key : string) (rest : list string) :
  parseArgs.split sep s = key :: rest ->
  s = key \/ exists tail, s = (key ++ String sep tail)%string.
Proof.
  revert key rest. induction s as [|c s IH]; intros key rest; cbn.
  - intros H. injection H as <- _. now left.
  - destruct (Ascii.eqb_spec c sep) as [-> | _].
    + intros H. injection H as <- _. right. now exists s.
    + destruct (parseArgs.split sep s) as [|piece pieces] eqn:E.
      * now destruct (split_nonempty sep s).
      * intros H. injection H as <- _.
        destruct (IH piece pieces eq_refl) as [-> | [tail ->]].
        -- now left.
        -- right. now exists tail.
Qed.

Lemma parseArgs_step_version (result : parseArgs.Options) (arg : string) :
  (asks_for_version arg ->
   parseArgs.parseArgs_step result arg = parseArgs.mkOptions (Some true))
  /\ (~ asks_for_version arg -> parseArgs.parseArgs_step result arg = result).
Proof.
  unfold parseArgs.parseArgs_step. split.
  - intros [-> | [tail ->]]; [reflexivity |].
    cbn. destruct (parseArgs.split "=" tail); reflexivity.
  - intros Hno. destruct (parseArgs.split "=" arg) as [|key rest] eqn:E;
      [reflexivity |].
    destruct (String.eqb_spec key "--version") as [-> | _]; [| reflexivity].
    destruct Hno. apply split_first_piece in E as [-> | [tail ->]].
    + now left.
    + right. now exists tail.
Qed.

Lemma parseArgs_fold (args : list string) (acc : parseArgs.Options) :
  (parseArgs.version (fold_left parseArgs.parseArgs_step args acc) = Some true
   <-> parseArgs.version acc = Some true
       \/ exists arg, In arg args /\ asks_for_version arg)
  /\ (parseArgs.version acc <> Some false ->
      parseArgs.version (fold_left parseArgs.parseArgs_step args acc)
      <> Some false).
Proof.
  revert acc. induction args as [|arg args IH]; intros acc; cbn [fold_left].
  - split; [| trivial]. split; [now left |].
    intros [H | [arg [[] _]]]. exact H.
  - destruct (IH (parseArgs.parseArgs_step acc arg)) as [IH1 IH2].
    assert (Hdec : asks_for_version arg \/ ~ asks_for_version arg).
    { destruct (parseArgs.split "=" arg) as [|key rest] eqn:E;
        [now destruct (split_nonempty "=" arg) |].
      destruct (String.eqb_spec key "--version") as [-> | Hk].
      - left. apply split_first_piece in E as [-> | [tail ->]].
        + now left.
        + right. now exists tail.
      - right. intros [-> | [tail ->]].
        + cbn in E. injection E as <- _. now destruct Hk.
        + cbn in E. destruct (parseArgs.split "=" tail);
            injection E as <- _; now destruct Hk. }
    destruct Hdec as [Hyes | Hno].
    + rewrite (proj1 (parseArgs_step_version acc arg) Hyes) in *.
      split.
      * rewrite IH1. split; intros _.
        -- right. exists arg. split; [now left | exact Hyes].
        -- now left.
      * intros _. apply IH2. discriminate.
    + rewrite (proj2 (parseArgs_step_version acc arg) Hno) in *.
      split; [| exact IH2].
      rewrite IH1. split.
      * intros [H | [a [Hin Ha]]]; [now left |].
        right. exists a. split; [now right | exact Ha].
      * intros [H | [a [[<- | Hin] Ha]]]; [now left | contradiction |].
        right. now exists a.
Qed.

(** [parseArgs] sets [version] exactly when one of the arguments is
    ["--version"] or begins with ["--version="], whatever follows the
    sign; an argument that merely begins with ["--version"] does not
    count. [version] is never [false]: it is [true] or missing. *)
Theorem parseArgs_version (args : list string) :
  (parseArgs.version (parseArgs.parseArgs args) = Some true
   <-> exists arg,
         In arg args
         /\ (arg = "--version"
             \/ exists tail, arg = ("--version=" ++ tail)%string))
  /\ parseArgs.version (parseArgs.parseArgs args) <> Some false
  /\ forall tail,
       tail <> EmptyString ->
       String.get 0 tail <> Some "="%char ->
       parseArgs.parseArgs [("--version" ++ tail)%string]
       = parseArgs.mkOptions None.
Proof.
  unfold parseArgs.parseArgs.
  destruct (parseArgs_fold args (parseArgs.mkOptions None)) as [H1 H2].
  split; [| split].
  - rewrite H1. split.
    + intros [H | H]; [discriminate H | exact H].
    + intros H. now right.
  - apply H2. discriminate.
  - intros [|c tail] Hne Hc; [now destruct Hne |].
    cbn [fold_left]. apply parseArgs_step_version.
    intros [H | [tail' H]]; cbn in H.
    + discriminate H.
    + injection H as -> _. now destruct Hc.
Qed.

Lemma parseArgs_version_witness :
  parseArgs.version
    (parseArgs.parseArgs ["--verbose"; "--version=anything"; "--port=22"])
  = Some true
  /\ parseArgs.parseArgs ["--versions"] = parseArgs.mkOptions None.
Proof.
  split.
  - apply (proj1 (parseArgs_version
                    ["--verbose"; "--version=anything"; "--port=22"])).
    exists "--version=anything". split.
    + right. now left.
    + right. now exists "anything".
  - apply (proj2 (proj2 (parseArgs_version [])) "s");
      [discriminate | discriminate].
Defined.

(* ===================================================================== *)
(** ** The output of the Exec command line *)
(* ===================================================================== *)

Section FormatOutput.
Variable W : World.
Variable formatBytes : nat -> string.
Variable toBase64 : Buffer -> string.

Lemma formatOutput_fold (buffer : Buffer) (formats : list string)
    (acc : SSHExecOp_output.StreamOutput) :
  fold_left (SSHExecOp_output.formatOutput_step W formatBytes toBase64 buffer)
    formats acc
  = SSHExecOp_output.mkStreamOutput
      (if SSHExecOp_output.wants "utf-8" formats
       then Some (buffer_toString W buffer)
       else SSHExecOp_output.text acc)
      (if SSHExecOp_output.wants "base64" formats
       then Some (toBase64 buffer)
       else SSHExecOp_output.base64 acc)
      (SSHExecOp_output.byteCount acc)
      (SSHExecOp_output.size acc)
      (if SSHExecOp_output.wants "base64" formats
       then Some (String.length (toBase64 buffer))
       else SSHExecOp_output.base64ByteCount acc)
      (if SSHExecOp_output.wants "base64" formats
       then Some (formatBytes (String.length (toBase64 buffer)))
       else SSHExecOp_output.base64Size acc).
Proof.
  revert acc. induction formats as [|f formats IH]; intros acc.
  - now destruct acc.
  - cbn [fold_left]. rewrite IH. unfold SSHExecOp_output.wants.
    cbn [existsb].
    unfold SSHExecOp_output.formatOutput_step.
    destruct (String.eqb_spec f "utf-8") as [-> | N1].
    + cbn. now destruct (existsb _ formats), (existsb _ formats).
    + destruct (String.eqb_spec f "base64") as [-> | N2]; cbn.
      * now destruct (existsb _ formats), (existsb _ formats).
      * reflexivity.
Qed.

(** [formatOutput] reports the length of the buffer, and each rendering
    exactly when its format is among those asked for: the text for
    ["utf-8"]; the base64 string, its length and the size of that
    length for ["base64"]. Repeating a format, the order of the
    formats, and strings that are no format change nothing. *)
Theorem formatOutput_fields (buffer : Buffer) (formats : list string) :
  SSHExecOp_output.formatOutput W formatBytes toBase64 buffer formats
  = SSHExecOp_output.mkStreamOutput
      (if SSHExecOp_output.wants "utf-8" formats
       then Some (buffer_toString W buffer) else None)
      (if SSHExecOp_output.wants "base64" formats
       then Some (toBase64 buffer) else None)
      (List.length buffer)
      (formatBytes (List.length buffer))
      (if SSHExecOp_output.wants "base64" formats
       then Some (String.length (toBase64 buffer)) else None)
      (if SSHExecOp_output.wants "base64" formats
       then Some (formatBytes (String.length (toBase64 buffer))) else None).
Proof.
  unfold SSHExecOp_output.formatOutput. now rewrite formatOutput_fold.
Qed.

Lemma wants_filter (format : string) (l : list string) :
  SSHExecOp_output.is_OutputFormat format = true ->
  SSHExecOp_output.wants format (filter SSHExecOp_output.is_OutputFormat l)
  = SSHExecOp_output.wants format l.
Proof.
  intros Hf. unfold SSHExecOp_output.wants.
  induction l as [|f l IH]; [reflexivity |].
  cbn [filter existsb].
  destruct (SSHExecOp_output.is_OutputFormat f) eqn:E; cbn [existsb].
  - now rewrite IH.
  - rewrite IH. destruct (String.eqb_spec f format) as [-> | _];
      [congruence | reflexivity].
Qed.

(** On the command line the text of a stream is printed by default, that
    is when no format is given at all. As soon as a format is given the
    default is gone: the text is present only if ["utf-8"] is among the
    formats given, so that giving nothing but unknown formats leaves a
    stream with its sizes and neither text nor base64. *)
Theorem selected_formats_output (buffer : Buffer)
    (rawFormats : option (list string)) :
  let given := match rawFormats with Some l => l | None => [] end in
  let output :=
    SSHExecOp_output.formatOutput W formatBytes toBase64 buffer
      (SSHExecOp_output.selectFormats rawFormats) in
  SSHExecOp_output.text output
  = (if match given with
        | [] => true
        | _ => SSHExecOp_output.wants "utf-8" given
        end
     then Some (buffer_toString W buffer) else None)
  /\ SSHExecOp_output.base64 output
     = (if SSHExecOp_output.wants "base64" given
        then Some (toBase64 buffer) else None)
  /\ (SSHExecOp_output.selectFormats rawFormats = []
      <-> given <> []
          /\ forall f, In f given -> f <> "utf-8" /\ f <> "base64").
Proof.
  intros given output. unfold output. rewrite formatOutput_fields.
  unfold SSHExecOp_output.selectFormats. fold given.
  destruct given as [|f l]; cbn [List.length Nat.ltb Nat.leb].
  - split; [reflexivity | split; [reflexivity |]].
    split; [discriminate | intros [H _]; now destruct H].
  - cbn [SSHExecOp_output.text SSHExecOp_output.base64].
    rewrite !wants_filter by reflexivity.
    split; [reflexivity | split; [reflexivity |]].
    split.
    + intros Hnil. split; [discriminate |]. intros f' Hin.
      assert (Hf : SSHExecOp_output.is_OutputFormat f' = false).
      { destruct (SSHExecOp_output.is_OutputFormat f') eqn:E;
          [| reflexivity].
        assert (H : In f' (filter SSHExecOp_output.is_OutputFormat (f :: l)))
          by (apply filter_In; now split).
        rewrite Hnil in H. contradiction. }
      unfold SSHExecOp_output.is_OutputFormat in Hf.
      apply orb_false_iff in Hf as [H1 H2].
      apply String.eqb_neq in H1, H2. now split.
    + intros [_ Hnone].
      destruct (filter SSHExecOp_output.is_OutputFormat (f :: l))
        as [|g gs] eqn:E; [reflexivity |].
      assert (Hin : In g (filter SSHExecOp_output.is_OutputFormat (f :: l)))
        by (rewrite E; now left).
      apply filter_In in Hin as [Hin Hg].
      destruct (Hnone g Hin) as [N1 N2].
      unfold SSHExecOp_output.is_OutputFormat in Hg.
      apply orb_true_iff in Hg as [Hg | Hg]; apply String.eqb_eq in Hg;
        contradiction.
Qed.

End FormatOutput.

Lemma selected_formats_output_witness :
  let out raw :=
    SSHExecOp_output.formatOutput
      (Scenario.world [] (spawn_child []) None)
      (fun n => JsString.of_number (Z.of_nat n)) string_of_list_byte
      (list_byte_of_string "ok")
      (SSHExecOp_output.selectFormats raw) in
  SSHExecOp_output.selectFormats (Some ["hex"]) = []
  /\ SSHExecOp_output.text (out (Some ["hex"])) = None
  /\ SSHExecOp_output.text (out None) = Some "ok".
Proof.
  intros out. split; [| split].
  - apply (proj2 (proj2 (selected_formats_output
                           (Scenario.world [] (spawn_child []) None)
                           (fun n => JsString.of_number (Z.of_nat n))
                           string_of_list_byte
                           (list_byte_of_string "ok") (Some ["hex"])))).
    split; [discriminate |].
    intros f [<- | []]. split; discriminate.
  - apply (proj1 (selected_formats_output
                    (Scenario.world [] (spawn_child []) None)
                    (fun n => JsString.of_number (Z.of_nat n))
                    string_of_list_byte
                    (list_byte_of_string "ok") (Some ["hex"]))).
  - apply (proj1 (selected_formats_output
                    (Scenario.world [] (spawn_child []) None)
                    (fun n => JsString.of_number (Z.of_nat n))
                    string_of_list_byte
                    (list_byte_of_string "ok") None)).
Defined.
